(** * radiation_unit_conversion: the conversion functions of [units.py]

    A shallow embedding of [radiation_unit_conversion/units.py] and the
    properties its specification states about it.

    Conventions of the embedding.
    - A magnitude is an exact rational ([Q]).  A decimal literal of the
      source, such as [2.99792458e21], is the rational it denotes; binary64
      rounding, overflow and underflow are outside the model.  The
      rationals say which formula, which unit and which conversion error
      the code produces.  What its binary64 arithmetic does where the
      rationals cannot follow (a square that underflows or overflows, a
      division by zero on Python floats and on numpy scalars) is embedded
      on primitive floats in the module [Binary64].
    - The quantity/unit subsystem ([astropy.units], [astropy.constants]) is
      an external collaborator of the library.  It is modelled after the
      contract the specification gives for it: a unit is a scale factor to
      the SI base together with a vector of base-unit exponents, and a
      conversion compares exponent vectors before it rescales.
    - A Python exception is a value of [error]; a function that may raise
      returns a [result]. *)

From Stdlib Require Import ZArith QArith Qabs Qfield Lia Lqa Bool.
From Stdlib Require Floats.

Local Open Scope Q_scope.

(** ** Failure *)

(** [UnitConversionError] is the dimension mismatch raised by a conversion
    between units that are not commensurate.  [DivisionByZero] is the
    outcome of dividing by a zero magnitude: Python floats raise
    [ZeroDivisionError], the numpy scalars behind a quantity yield
    [inf]/[nan] under a warning; neither has a rational value, and both are
    this outcome here. *)
Inductive error : Type :=
| UnitConversionError
| DivisionByZero.

Inductive result (A : Type) : Type :=
| Ok (a : A)
| Raise (e : error).

Arguments Ok {A} a.
Arguments Raise {A} e.

Definition bind {A B : Type} (r : result A) (k : A -> result B) : result B :=
  match r with
  | Ok a => k a
  | Raise e => Raise e
  end.

Notation "x <- r ;; k" := (bind r (fun x => k))
  (at level 61, r at next level, right associativity).

(** ** The quantity subsystem *)

Module Astropy.

(** Modelled from the spec: the dimension of a unit, "a vector of base-unit
    exponents (length, time, mass/energy, angle)", with the photon count the
    photon-flux units need as a fifth base. *)
Record Dim : Type := mkDim {
  d_length : Z;
  d_mass : Z;
  d_time : Z;
  d_angle : Z;
  d_photon : Z
}.

Definition dim_one : Dim := mkDim 0 0 0 0 0.

Definition dim_mul (a b : Dim) : Dim :=
  mkDim (d_length a + d_length b) (d_mass a + d_mass b)
        (d_time a + d_time b) (d_angle a + d_angle b)
        (d_photon a + d_photon b).

Definition dim_div (a b : Dim) : Dim :=
  mkDim (d_length a - d_length b) (d_mass a - d_mass b)
        (d_time a - d_time b) (d_angle a - d_angle b)
        (d_photon a - d_photon b).

Definition dim_pow (a : Dim) (n : Z) : Dim :=
  mkDim (d_length a * n) (d_mass a * n) (d_time a * n) (d_angle a * n)
        (d_photon a * n).

Definition dim_eqb (a b : Dim) : bool :=
  (d_length a =? d_length b)%Z && (d_mass a =? d_mass b)%Z &&
  (d_time a =? d_time b)%Z && (d_angle a =? d_angle b)%Z &&
  (d_photon a =? d_photon b)%Z.

(** Modelled from the spec: a unit of measurement of the quantity
    subsystem, as the factor that takes a magnitude in this unit to the
    coherent SI unit of its dimension, and the dimension. *)
Record Unit : Type := mkUnit {
  scale : Q;
  dim : Dim
}.

Definition dimensionless_unscaled : Unit := mkUnit 1 dim_one.

Definition unit_mul (a b : Unit) : Unit :=
  mkUnit (scale a * scale b) (dim_mul (dim a) (dim b)).

Definition unit_div (a b : Unit) : Unit :=
  mkUnit (scale a / scale b) (dim_div (dim a) (dim b)).

Definition unit_pow (a : Unit) (n : positive) : Unit :=
  mkUnit (Qpower_positive (scale a) n) (dim_pow (dim a) (Zpos n)).

Definition unit_inv (a : Unit) : Unit :=
  mkUnit (/ scale a) (dim_div dim_one (dim a)).

(** Two unit expressions that denote the same unit. *)
Definition unit_equiv (a b : Unit) : Prop :=
  scale a == scale b /\ dim a = dim b.

(** A unit the subsystem can hold: its scale is positive. *)
Definition unit_wf (a : Unit) : Prop := 0 < scale a.

(** The named units of [astropy.units] that the library and its
    specification mention. *)
Definition m : Unit := mkUnit 1 (mkDim 1 0 0 0 0).
Definition kg : Unit := mkUnit 1 (mkDim 0 1 0 0 0).
Definition second : Unit := mkUnit 1 (mkDim 0 0 1 0 0).
Definition cm : Unit := mkUnit 1e-2 (mkDim 1 0 0 0 0).
Definition micron : Unit := mkUnit 1e-6 (mkDim 1 0 0 0 0).
Definition nm : Unit := mkUnit 1e-9 (mkDim 1 0 0 0 0).
Definition Angstrom : Unit := mkUnit 1e-10 (mkDim 1 0 0 0 0).
Definition Hz : Unit := mkUnit 1 (mkDim 0 0 (-1) 0 0).
Definition W : Unit := mkUnit 1 (mkDim 2 1 (-3) 0 0).
Definition erg : Unit := mkUnit 1e-7 (mkDim 2 1 (-2) 0 0).
Definition Jy : Unit := mkUnit 1e-26 (mkDim 0 1 (-2) 0 0).
Definition arcsec : Unit := mkUnit 1 (mkDim 0 0 0 1 0).
Definition ph : Unit := mkUnit 1 (mkDim 0 0 0 0 1).

(** The dimensions the generic converters require. *)
Definition dim_length : Dim := mkDim 1 0 0 0 0.
Definition dim_time : Dim := mkDim 0 0 1 0 0.
Definition dim_frequency : Dim := mkDim 0 0 (-1) 0 0.
(** power / area / frequency *)
Definition dim_fnu : Dim := mkDim 0 1 (-2) 0 0.
(** power / area / length *)
Definition dim_flambda : Dim := mkDim (-1) 1 (-3) 0 0.

(** Modelled from the spec: the physical quantity, "a numeric magnitude
    bound to a unit of measurement". *)
Record Quantity : Type := mkQuantity {
  value : Q;
  unit : Unit
}.

(** Modelled from the spec: [Quantity.to], "dimensionally-checked
    conversion between commensurate units (fails on incompatible
    dimensions)". *)
Definition to (q : Quantity) (u : Unit) : result Quantity :=
  if dim_eqb (dim (unit q)) (dim u)
  then Ok (mkQuantity (value q * (scale (unit q) / scale u)) u)
  else Raise UnitConversionError.

(** Modelled from the spec: the arithmetic of quantities, which "composes
    units algebraically and keeps magnitude and unit in lock-step". *)
Definition quantity_mul (a b : Quantity) : Quantity :=
  mkQuantity (value a * value b) (unit_mul (unit a) (unit b)).

(** [a / b] on rationals.  A zero divisor has no rational quotient; numpy
    goes on from there with an infinite magnitude, which the rationals do
    not hold, and the model stops with [DivisionByZero]. *)
Definition quantity_truediv (a b : Quantity) : result Quantity :=
  if Qeq_bool (value b) 0 then Raise DivisionByZero
  else Ok (mkQuantity (value a / value b) (unit_div (unit a) (unit b))).

Definition quantity_pow (a : Quantity) (n : positive) : Quantity :=
  mkQuantity (Qpower_positive (value a) n) (unit_pow (unit a) n).

(** Modelled from the spec: the speed of light of the constants registry,
    [astropy.constants.c], in metres per second. *)
Definition c : Quantity := mkQuantity 299792458 (unit_div m second).

End Astropy.

Import Astropy.

(** ** Python values *)

(** The fixed-constant converters apply [*], [/] and [**] to whatever they
    are given: a plain float or a quantity. *)
Inductive pyval : Type :=
| PyFloat (x : Q)
| PyQuantity (q : Quantity).

Definition magnitude (a : pyval) : Q :=
  match a with
  | PyFloat x => x
  | PyQuantity q => value q
  end.

(** The unit a value carries; a plain float carries none. *)
Definition unit_of (a : pyval) : Unit :=
  match a with
  | PyFloat _ => dimensionless_unscaled
  | PyQuantity q => unit q
  end.

(** [a * b] *)
Definition py_mul (a b : pyval) : pyval :=
  match a, b with
  | PyFloat x, PyFloat y => PyFloat (x * y)
  | PyFloat x, PyQuantity q => PyQuantity (mkQuantity (x * value q) (unit q))
  | PyQuantity p, PyFloat y => PyQuantity (mkQuantity (value p * y) (unit p))
  | PyQuantity p, PyQuantity q => PyQuantity (quantity_mul p q)
  end.

(** [a / b] on rationals.  At a zero divisor Python floats raise
    [ZeroDivisionError] and quantities go on with an infinite magnitude; the
    rationals hold neither, and [DivisionByZero] stands for both.  The two
    are told apart in [Binary64]. *)
Definition py_truediv (a b : pyval) : result pyval :=
  if Qeq_bool (magnitude b) 0 then Raise DivisionByZero
  else
    match a, b with
    | PyFloat x, PyFloat y => Ok (PyFloat (x / y))
    | PyFloat x, PyQuantity q =>
        Ok (PyQuantity (mkQuantity (x / value q) (unit_inv (unit q))))
    | PyQuantity p, PyFloat y =>
        Ok (PyQuantity (mkQuantity (value p / y) (unit p)))
    | PyQuantity p, PyQuantity q =>
        Ok (PyQuantity (mkQuantity (value p / value q)
                                   (unit_div (unit p) (unit q))))
    end.

(** [a ** n] for a literal exponent [n], on rationals: the exact power.
    The [OverflowError] of a float power beyond the binary64 range, and the
    underflow of a small one to zero, are in [Binary64]. *)
Definition py_pow (a : pyval) (n : positive) : pyval :=
  match a with
  | PyFloat x => PyFloat (Qpower_positive x n)
  | PyQuantity q => PyQuantity (quantity_pow q n)
  end.

(** Two values that agree in magnitude and denote the same unit. *)
Definition pyval_equiv (a b : pyval) : Prop :=
  magnitude a == magnitude b /\ unit_equiv (unit_of a) (unit_of b).

(** [y] is [x] within the relative error [tol]. *)
Definition rel_close (tol x y : Q) : Prop :=
  Qabs (y - x) <= tol * Qabs x.

(** ** The generic dimensional converters *)

(** [u.W/u.m**2/u.Hz] and [u.W/u.m**2/u.micron], the canonical units. *)
Definition W_m2_Hz : Unit := unit_div (unit_div W (unit_pow m 2)) Hz.
Definition W_m2_micron : Unit := unit_div (unit_div W (unit_pow m 2)) micron.

(** [number * unit]: a float is given a unit. *)
Definition attach_unit (x : Q) (u : Unit) : Quantity := mkQuantity x u.

(** Division of two magnitudes taken out of their quantities by [.value],
    on rationals.  They are numpy scalars: at a zero divisor the program
    goes on with an infinite magnitude (see [Binary64.fnu2flambda]); the
    model stops with [DivisionByZero]. *)
Definition float_truediv (x y : Q) : result Q :=
  if Qeq_bool y 0 then Raise DivisionByZero else Ok (x / y).

Definition fnu2flambda (input_flux input_wavelength : Quantity)
    (output_units : Unit) : result Quantity :=
  input_converted <- to input_flux W_m2_Hz ;;
  wlen_converted <- to input_wavelength micron ;;
  constant <- to c (unit_div micron second) ;;
  output <- float_truediv (value constant * value input_converted)
                          (Qpower_positive (value wlen_converted) 2) ;;
  let output := attach_unit output W_m2_micron in
  to output output_units.

Definition flambda2fnu (input_flux input_wavelength : Quantity)
    (output_units : Unit) : result Quantity :=
  input_converted <- to input_flux W_m2_micron ;;
  wlen_converted <- to input_wavelength micron ;;
  constant <- to c (unit_div micron second) ;;
  output <- float_truediv
              (value input_converted
               * Qpower_positive (value wlen_converted) 2)
              (value constant) ;;
  let output := attach_unit output W_m2_Hz in
  to output output_units.

Definition wavelength2frequency (input_wavelength : Quantity)
    (output_units : Unit) : result Quantity :=
  _ <- to input_wavelength m ;;
  r <- quantity_truediv c input_wavelength ;;
  to r output_units.

Definition frequency2wavelength (input_frequency : Quantity)
    (output_units : Unit) : result Quantity :=
  _ <- to input_frequency m ;;
  r <- quantity_truediv c input_frequency ;;
  to r output_units.

(** ** The fixed-constant converters *)

Definition watt_metersquared2erg_cmsquared_second (input_flux : pyval)
    : result pyval :=
  Ok (py_mul (PyFloat 1000) input_flux).

Definition erg_cmsquared_second2watt_metersquared (input_flux : pyval)
    : result pyval :=
  py_truediv input_flux (PyFloat 1000).

Definition watt_metersquared_hertz2erg_cmsquared_second_hertz
    (input_flux : pyval) : result pyval :=
  Ok (py_mul (PyFloat 1000) input_flux).

Definition erg_cmsquared_secondhertz2watt_metersquaredhertz
    (input_flux : pyval) : result pyval :=
  py_truediv input_flux (PyFloat 1000).

Definition watt_metersquared_hertz2erg_cmsquared_second_angstrom
    (input_flux input_wavelength : pyval) : result pyval :=
  let constant := PyFloat 2.99792458e21 in
  py_truediv (py_mul constant input_flux) (py_pow input_wavelength 2).

Definition erg_cmsquared_second_angstrom2watt_metersquared_hertz
    (input_flux input_wavelength : pyval) : result pyval :=
  let constant := PyFloat 2.99792458e21 in
  py_truediv (py_mul input_flux (py_pow input_wavelength 2)) constant.

Definition watt_metersquared_hertz2watt_metersquared_micron
    (input_flux input_wavelength : pyval) : result pyval :=
  let constant := PyFloat 2.99792458e14 in
  py_truediv (py_mul constant input_flux) (py_pow input_wavelength 2).

Definition watt_metersquared_micron2watt_metersquared_hertz
    (input_flux input_wavelength : pyval) : result pyval :=
  let constant := PyFloat 2.99792458e14 in
  py_truediv (py_mul input_flux (py_pow input_wavelength 2)) constant.

Definition erg_cmsquared_hertz2photon_cmsquared_second_micron
    (input_flux input_wavelength : pyval) : result pyval :=
  let constant := PyFloat 1.50918896e22 in
  py_truediv (py_mul constant input_flux) input_wavelength.

Definition photon_cmsquared_second_micron2erg_cmsquared_hertz
    (input_flux input_wavelength : pyval) : result pyval :=
  let constant := PyFloat 1.50918896e22 in
  py_truediv (py_mul input_flux input_wavelength) constant.

Definition watt_metersquared_micron2photon_cmsquared_second_micron
    (input_flux input_wavelength : pyval) : result pyval :=
  let constant := PyFloat 5.03411250e14 in
  Ok (py_mul (py_mul constant input_flux) input_wavelength).

Definition photon_cmsquared_second_micron2watt_metersquared_micron
    (input_flux input_wavelength : pyval) : result pyval :=
  let constant := PyFloat 5.03411250e14 in
  r <- py_truediv input_flux input_wavelength ;;
  py_truediv r constant.

Definition erg_cmsquared_second_angstrom2photon_cmsquared_second_angstrom
    (input_flux input_wavelength : pyval) : result pyval :=
  let constant := PyFloat 5.03411250e7 in
  Ok (py_mul (py_mul constant input_flux) input_wavelength).

Definition photon_cmsquared_second_angstrom2erg_cmsquared_second_angstrom
    (input_flux input_wavelength : pyval) : result pyval :=
  let constant := PyFloat 5.03411250e7 in
  r <- py_truediv input_flux input_wavelength ;;
  py_truediv r constant.

Definition watt_metersquared_hertz2jansky (input_flux : pyval)
    : result pyval :=
  let constant := PyFloat 1e26 in
  Ok (py_mul constant input_flux).

Definition jansky2watt_metersquared_hertz (input_flux : pyval)
    : result pyval :=
  let constant := PyFloat 1e26 in
  py_truediv input_flux constant.

Definition erg_cmsquared_second_hertz2jansky (input_flux : pyval)
    : result pyval :=
  let constant := PyFloat 1e23 in
  Ok (py_mul input_flux constant).

Definition jansky2erg_cmsquared_second_hertz (input_flux : pyval)
    : result pyval :=
  let constant := PyFloat 1e23 in
  py_truediv input_flux constant.

Definition erg_cmsquared_second_angstrom2jansky
    (input_flux input_wavelength : pyval) : result pyval :=
  constant <- py_truediv (PyFloat 1e23) (PyFloat 2.99792458e14) ;;
  Ok (py_mul (py_mul constant input_flux) (py_pow input_wavelength 2)).

Definition jansky2erg_cmsquared_second_angstrom
    (input_flux input_wavelength : pyval) : result pyval :=
  let constant := PyFloat 3.33564095e4 in
  r <- py_truediv input_flux (py_pow input_wavelength 2) ;;
  py_truediv r constant.

Definition watt_metersquared_micron2jansky
    (input_flux input_wavelength : pyval) : result pyval :=
  fnu <- watt_metersquared_micron2watt_metersquared_hertz
           input_flux input_wavelength ;;
  watt_metersquared_hertz2jansky fnu.

Definition jansky2watt_metersquared_micron
    (input_flux input_wavelength : pyval) : result pyval :=
  fnu <- jansky2watt_metersquared_hertz input_flux ;;
  watt_metersquared_hertz2watt_metersquared_micron fnu input_wavelength.

Definition jansky2photon_cmsquared_second_angstrom
    (input_flux input_wavelength : pyval) : result pyval :=
  let constant := PyFloat 1.50918896e3 in
  py_truediv (py_mul constant input_flux) input_wavelength.

Definition photon_cmsquared_second_angstrom2jansky
    (input_flux input_wavelength : pyval) : result pyval :=
  let constant := PyFloat 1.50918896e3 in
  py_truediv (py_mul input_flux input_wavelength) constant.

Definition rayleigh2photon_cmsquared_second_angstrom_steradian
    (input_flux : pyval) : result pyval :=
  let constant := PyFloat 7.9577539e4 in
  Ok (py_mul constant input_flux).

Definition photon_cmsquared_second_angstrom_steradian2rayleigh
    (input_flux : pyval) : result pyval :=
  let constant := PyFloat 7.9577539e4 in
  py_truediv input_flux constant.

Definition rayleigh2photon_cmsquared_second_angstrom_degreesquared
    (input_flux : pyval) : result pyval :=
  let constant := PyFloat 2.4240705e1 in
  Ok (py_mul constant input_flux).

Definition photon_cmsquared_second_angstrom_degreesquared2rayleigh
    (input_flux : pyval) : result pyval :=
  let constant := PyFloat 2.4240705e1 in
  py_truediv input_flux constant.

Definition rayleigh2photon_cmsquared_second_angstrom_arcsecondsquared
    (input_flux : pyval) : result pyval :=
  let constant := PyFloat 1.8704247e-6 in
  Ok (py_mul constant input_flux).

Definition photon_cmsquared_second_angstrom_arcsecondsquared2rayleigh
    (input_flux : pyval) : result pyval :=
  let constant := PyFloat 1.8704247e-6 in
  py_truediv constant input_flux.

(** ** The algorithm of [fnu2flambda] in the words of its specification *)

(** Rescaling of a quantity to a unit already known to be commensurate. *)
Definition rescale (q : Quantity) (u : Unit) : Quantity :=
  mkQuantity (value q * (scale (unit q) / scale u)) u.

Definition speed_of_light_micron_per_second : Q := 2.99792458e14.

(** Normalize the flux to W/m^2/Hz and the wavelength to micron, multiply the
    flux magnitude by (speed of light in micron per second) / wavelength^2,
    attach W/m^2/micron, convert to the output unit. *)
Definition fnu2flambda_steps (flux wavelength : Quantity) (output_unit : Unit)
    : Quantity :=
  let flux_canonical := rescale flux W_m2_Hz in
  let wavelength_micron := rescale wavelength micron in
  let factor :=
    speed_of_light_micron_per_second
    / (value wavelength_micron * value wavelength_micron) in
  rescale (mkQuantity (value flux_canonical * factor) W_m2_micron)
          output_unit.

(** ** Outcomes *)

Definition is_ok {A : Type} (r : result A) : Prop :=
  match r with
  | Ok _ => True
  | Raise _ => False
  end.

(** The call returns the plain float [x]. *)
Definition returns_float (r : result pyval) (x : Q) : Prop :=
  match r with
  | Ok (PyFloat v) => v == x
  | _ => False
  end.

(** The call returns a quantity of magnitude [x] tagged with the unit [u]. *)
Definition returns_quantity (r : result Quantity) (x : Q) (u : Unit) : Prop :=
  match r with
  | Ok q => value q == x /\ unit q = u
  | Raise _ => False
  end.

(** The call returns a value of magnitude [x]. *)
Definition returns_magnitude (r : result pyval) (x : Q) : Prop :=
  match r with
  | Ok v => magnitude v == x
  | Raise _ => False
  end.

(** The call returns a value tagged with the unit [u]. *)
Definition returns_unit (r : result pyval) (u : Unit) : Prop :=
  match r with
  | Ok v => unit_of v = u
  | Raise _ => False
  end.

(** [finv (f x)], for a pair of converters that take no wavelength, and
    [finv (f x w) w], for a pair that takes one. *)
Definition round_trip1 (f finv : pyval -> result pyval) (x : pyval)
    : result pyval :=
  y <- f x ;; finv y.

Definition round_trip2 (f finv : pyval -> pyval -> result pyval)
    (x w : pyval) : result pyval :=
  y <- f x w ;; finv y w.

(** Sample units for the examples: photon/cm^2/s/Angstrom/arcsec^2 and
    W/m^2. *)
Definition ph_cm2_s_A_arcsec2 : Unit :=
  unit_div (unit_div (unit_div (unit_div ph (unit_pow cm 2)) second) Angstrom)
           (unit_pow arcsec 2).
Definition W_m2 : Unit := unit_div W (unit_pow m 2).
Definition erg_s_cm2_Hz : Unit :=
  unit_div (unit_div (unit_div erg second) (unit_pow cm 2)) Hz.

(** ** Further vocabulary for the statements *)

(** The call returns a value of the magnitude of [x], in the unit of [x]. *)
Definition returns_equiv (r : result pyval) (x : pyval) : Prop :=
  match r with
  | Ok v => pyval_equiv v x
  | Raise _ => False
  end.

(** Further sample units: erg/cm^2/s and erg/cm^2/s/Angstrom. *)
Definition erg_cm2_s : Unit :=
  unit_div (unit_div erg (unit_pow cm 2)) second.
Definition erg_cm2_s_A : Unit := unit_div erg_cm2_s Angstrom.

(** The magnitude of a quantity in the coherent SI unit of its dimension. *)
Definition si (q : Quantity) : Q := value q * scale (unit q).

(** The call returns a quantity tagged [u] whose SI magnitude is [x]. *)
Definition returns_si (r : result Quantity) (u : Unit) (x : Q) : Prop :=
  match r with
  | Ok q => unit q = u /\ si q == x
  | Raise _ => False
  end.

(** The converters of the module that take a flux only: those that scale
    it by their constant, and all of them; and the converters that take a
    flux and a wavelength. *)
Definition scaling_converters : list (pyval -> result pyval) :=
  watt_metersquared2erg_cmsquared_second
  :: erg_cmsquared_second2watt_metersquared
  :: watt_metersquared_hertz2erg_cmsquared_second_hertz
  :: erg_cmsquared_secondhertz2watt_metersquaredhertz
  :: watt_metersquared_hertz2jansky
  :: jansky2watt_metersquared_hertz
  :: erg_cmsquared_second_hertz2jansky
  :: jansky2erg_cmsquared_second_hertz
  :: rayleigh2photon_cmsquared_second_angstrom_steradian
  :: photon_cmsquared_second_angstrom_steradian2rayleigh
  :: rayleigh2photon_cmsquared_second_angstrom_degreesquared
  :: photon_cmsquared_second_angstrom_degreesquared2rayleigh
  :: rayleigh2photon_cmsquared_second_angstrom_arcsecondsquared
  :: nil.

Definition wavelength_free_converters : list (pyval -> result pyval) :=
  photon_cmsquared_second_angstrom_arcsecondsquared2rayleigh
  :: scaling_converters.

Definition wavelength_converters : list (pyval -> pyval -> result pyval) :=
  watt_metersquared_hertz2erg_cmsquared_second_angstrom
  :: erg_cmsquared_second_angstrom2watt_metersquared_hertz
  :: watt_metersquared_hertz2watt_metersquared_micron
  :: watt_metersquared_micron2watt_metersquared_hertz
  :: erg_cmsquared_hertz2photon_cmsquared_second_micron
  :: photon_cmsquared_second_micron2erg_cmsquared_hertz
  :: watt_metersquared_micron2photon_cmsquared_second_micron
  :: photon_cmsquared_second_micron2watt_metersquared_micron
  :: erg_cmsquared_second_angstrom2photon_cmsquared_second_angstrom
  :: photon_cmsquared_second_angstrom2erg_cmsquared_second_angstrom
  :: erg_cmsquared_second_angstrom2jansky
  :: jansky2erg_cmsquared_second_angstrom
  :: watt_metersquared_micron2jansky
  :: jansky2watt_metersquared_micron
  :: jansky2photon_cmsquared_second_angstrom
  :: photon_cmsquared_second_angstrom2jansky
  :: nil.

(** The quantity of magnitude [x] in the unit [u], as a Python value. *)
Definition quantity (x : Q) (u : Unit) : pyval := PyQuantity (mkQuantity x u).

(** The call returns a magnitude that, read in the unit [u], is [x] in SI
    terms; and one that is [x] in SI terms within the relative error
    [tol]. *)
Definition returns_in (r : result pyval) (u : Unit) (x : Q) : Prop :=
  match r with
  | Ok v => si (mkQuantity (magnitude v) u) == x
  | Raise _ => False
  end.

Definition returns_in_within (tol : Q) (r : result pyval) (u : Unit) (x : Q)
    : Prop :=
  match r with
  | Ok v => rel_close tol x (si (mkQuantity (magnitude v) u))
  | Raise _ => False
  end.

(** ** The arithmetic in binary64 *)

(** The rationals above show which formula a converter evaluates.  They do
    not show what the binary64 arithmetic of the program does at the ends of
    its range: a square that underflows to zero or overflows, a division by
    zero.  This module embeds that arithmetic for the converters that
    divide, on primitive binary64 floats.  A decimal literal is the binary64
    number nearest to it, as in the source. *)
Module Binary64.

Import Floats.
Local Open Scope float_scope.
#[local] Set Warnings "-inexact-float".

(** The exceptions of the arithmetic of Python floats. *)
Inductive exception : Type :=
| ZeroDivisionError
| OverflowError.

Inductive outcome (A : Type) : Type :=
| Returns (a : A)
| Raises (e : exception).

Arguments Returns {A} a.
Arguments Raises {A} e.

Definition and_then {A B : Type} (r : outcome A) (k : A -> outcome B)
    : outcome B :=
  match r with
  | Returns a => k a
  | Raises e => Raises e
  end.

#[local] Notation "x <-- r ;; k" := (and_then r (fun x => k))
  (at level 61, r at next level, right associativity).

(** [x / y] on Python floats: a divisor equal to zero, of either sign,
    raises; any other division returns its binary64 result. *)
Definition float_truediv (x y : float) : outcome float :=
  if y =? 0 then Raises ZeroDivisionError else Returns (x / y).

(** [x ** 2] on Python floats: the binary64 square; a finite [x] whose
    square is beyond the range raises, a square below the range is zero. *)
Definition float_pow2 (x : float) : outcome float :=
  let r := x * x in
  if is_infinity r && negb (is_infinity x) then Raises OverflowError
  else Returns r.

(** The fixed-constant converters that divide by the wavelength or by the
    flux, called on Python floats. *)
Definition watt_metersquared_hertz2erg_cmsquared_second_angstrom
    (input_flux input_wavelength : float) : outcome float :=
  let constant := 2.99792458e21 in
  square <-- float_pow2 input_wavelength ;;
  float_truediv (constant * input_flux) square.

Definition watt_metersquared_hertz2watt_metersquared_micron
    (input_flux input_wavelength : float) : outcome float :=
  let constant := 2.99792458e14 in
  square <-- float_pow2 input_wavelength ;;
  float_truediv (constant * input_flux) square.

Definition photon_cmsquared_second_micron2watt_metersquared_micron
    (input_flux input_wavelength : float) : outcome float :=
  let constant := 5.03411250e14 in
  r <-- float_truediv input_flux input_wavelength ;;
  float_truediv r constant.

Definition photon_cmsquared_second_angstrom2erg_cmsquared_second_angstrom
    (input_flux input_wavelength : float) : outcome float :=
  let constant := 5.03411250e7 in
  r <-- float_truediv input_flux input_wavelength ;;
  float_truediv r constant.

Definition jansky2erg_cmsquared_second_angstrom
    (input_flux input_wavelength : float) : outcome float :=
  let constant := 3.33564095e4 in
  square <-- float_pow2 input_wavelength ;;
  r <-- float_truediv input_flux square ;;
  float_truediv r constant.

Definition jansky2photon_cmsquared_second_angstrom
    (input_flux input_wavelength : float) : outcome float :=
  let constant := 1.50918896e3 in
  float_truediv (constant * input_flux) input_wavelength.

Definition photon_cmsquared_second_angstrom_arcsecondsquared2rayleigh
    (input_flux : float) : outcome float :=
  let constant := 1.8704247e-6 in
  float_truediv constant input_flux.

(** The magnitudes of the generic converters.  They are numpy scalars:
    [*], [/] and [** 2] return the binary64 result, infinite or not a number
    where there is no other, and raise nothing.  Modelled from the spec: a
    conversion between commensurate units rescales the magnitude; the three
    factors of the conversions of the flux, of the wavelength and of the
    result are parameters here, 1 between equal units.  The speed of light
    is converted from metres to micron per second by the factor 1/1e-6. *)
Definition speed_of_light_micron_per_second : float :=
  (1 / 1e-6) * 299792458.

Definition fnu2flambda (flux_factor wavelength_factor output_factor : float)
    (input_flux input_wavelength : float) : float :=
  let input_converted := flux_factor * input_flux in
  let wlen_converted := wavelength_factor * input_wavelength in
  let constant := speed_of_light_micron_per_second in
  let output :=
    constant * input_converted / (wlen_converted * wlen_converted) in
  output_factor * output.

Definition flambda2fnu (flux_factor wavelength_factor output_factor : float)
    (input_flux input_wavelength : float) : float :=
  let input_converted := flux_factor * input_flux in
  let wlen_converted := wavelength_factor * input_wavelength in
  let constant := speed_of_light_micron_per_second in
  let output :=
    input_converted * (wlen_converted * wlen_converted) / constant in
  output_factor * output.

(** [y] is [x] within the relative error [tol], as a test on floats; it
    fails when either is not a number. *)
Definition rel_close (tol x y : float) : bool :=
  abs (y - x) <=? tol * abs x.

End Binary64.

(** * Properties *)

(** ** The quantity subsystem *)

Lemma dim_eqb_eq (a b : Dim) : dim_eqb a b = true <-> a = b.
Proof.
  destruct a as [l1 m1 t1 a1 p1], b as [l2 m2 t2 a2 p2].
  unfold dim_eqb; cbn [d_length d_mass d_time d_angle d_photon].
  rewrite !andb_true_iff, !Z.eqb_eq.
  split.
  - intros [[[[-> ->] ->] ->] ->]; reflexivity.
  - intros E; injection E as -> -> -> -> ->; repeat split.
Qed.

Lemma dim_eqb_refl (a : Dim) : dim_eqb a a = true.
Proof. apply dim_eqb_eq; reflexivity. Qed.

Lemma dim_eqb_neq (a b : Dim) : a <> b -> dim_eqb a b = false.
Proof.
  intros N; destruct (dim_eqb a b) eqn:E; [|reflexivity].
  apply dim_eqb_eq in E; contradiction.
Qed.

(** A conversion succeeds exactly on commensurate units. *)
Lemma to_commensurate (q : Quantity) (u : Unit) :
  dim (unit q) = dim u -> to q u = Ok (rescale q u).
Proof.
  intros E; unfold to; rewrite E, dim_eqb_refl; reflexivity.
Qed.

Lemma to_incommensurate (q : Quantity) (u : Unit) :
  dim (unit q) <> dim u -> to q u = Raise UnitConversionError.
Proof.
  intros N; unfold to; rewrite (dim_eqb_neq _ _ N); reflexivity.
Qed.

(** A conversion raises nothing but the dimension mismatch. *)
Lemma to_raises (q : Quantity) (u : Unit) (e : error) :
  to q u = Raise e -> e = UnitConversionError.
Proof.
  unfold to; destruct (dim_eqb _ _); [discriminate|].
  intros E; injection E as <-; reflexivity.
Qed.

Lemma Qeq_bool_nonzero (x : Q) : ~ x == 0 -> Qeq_bool x 0 = false.
Proof.
  intros N; destruct (Qeq_bool x 0) eqn:E; [|reflexivity].
  apply Qeq_bool_iff in E; contradiction.
Qed.

Lemma Qsquare_nonzero (x : Q) : ~ x == 0 -> ~ Qpower_positive x 2 == 0.
Proof.
  intros N E; cbn in E.
  destruct (Qmult_integral _ _ E); contradiction.
Qed.

(** ** The operators on Python values *)

Lemma magnitude_mul (a b : pyval) :
  magnitude (py_mul a b) = magnitude a * magnitude b.
Proof. destruct a, b; reflexivity. Qed.

Lemma magnitude_pow (a : pyval) (n : positive) :
  magnitude (py_pow a n) = Qpower_positive (magnitude a) n.
Proof. destruct a; reflexivity. Qed.

(** A division by a nonzero magnitude returns, and returns the quotient. *)
Lemma py_truediv_ok (a b : pyval) :
  ~ magnitude b == 0 ->
  exists v, py_truediv a b = Ok v /\ magnitude v = magnitude a / magnitude b.
Proof.
  intros N; unfold py_truediv; rewrite (Qeq_bool_nonzero _ N).
  destruct a, b; eexists; split; reflexivity.
Qed.

(** Multiplication by a float on the left, and division by a nonzero float,
    leave the unit tag as it is. *)
Lemma unit_of_float_mul (k : Q) (a : pyval) :
  unit_of (py_mul (PyFloat k) a) = unit_of a.
Proof. destruct a; reflexivity. Qed.

Lemma unit_of_mul_float (k : Q) (a : pyval) :
  unit_of (py_mul a (PyFloat k)) = unit_of a.
Proof. destruct a; reflexivity. Qed.

Lemma py_truediv_float (a : pyval) (k : Q) :
  ~ k == 0 ->
  exists v, py_truediv a (PyFloat k) = Ok v
            /\ magnitude v = magnitude a / k /\ unit_of v = unit_of a.
Proof.
  intros N; unfold py_truediv; cbn [magnitude].
  rewrite (Qeq_bool_nonzero _ N).
  destruct a; eexists; repeat split.
Qed.

(** ** Round trips of the fixed-constant pairs *)

(** Runs the next division of the goal: its divisor is nonzero, so it
    returns a value whose magnitude is the quotient. *)
Ltac run_div :=
  match goal with
  | |- context [py_truediv ?a ?b] =>
      let v := fresh "v" in
      let E := fresh "E" in
      let M := fresh "M" in
      destruct (py_truediv_ok a b) as (v & E & M);
      [ rewrite ?magnitude_mul, ?magnitude_pow; cbn [magnitude]
      | rewrite E; cbn [bind];
        rewrite ?magnitude_mul, ?magnitude_pow in M; cbn [magnitude] in M ]
  end.

Ltac nonzero :=
  solve [ discriminate
        | assumption
        | apply Qsquare_nonzero; assumption ].

Ltac field_side :=
  repeat split;
  solve [ assumption
        | let H := fresh in intros H; vm_compute in H; discriminate H ].

Ltac finish_magnitude :=
  cbn [returns_magnitude bind];
  rewrite ?magnitude_mul, ?magnitude_pow; cbn [magnitude];
  repeat match goal with M : magnitude _ = _ |- _ => rewrite M; clear M end;
  cbn [Qpower_positive pow_pos]; field; field_side.

(** The pairs that take no wavelength: a multiplication by the constant
    followed by the division by it. *)
Section RoundTripScaling.

Variable x : pyval.

Lemma round_trip_watt_metersquared_erg_cmsquared_second :
  returns_magnitude
    (round_trip1 watt_metersquared2erg_cmsquared_second
                 erg_cmsquared_second2watt_metersquared x)
    (magnitude x).
Proof.
  unfold round_trip1, watt_metersquared2erg_cmsquared_second,
    erg_cmsquared_second2watt_metersquared;
    cbn [bind].
  repeat (run_div; [nonzero|]). finish_magnitude.
Qed.

Lemma round_trip_watt_metersquared_hertz_erg_cmsquared_second_hertz :
  returns_magnitude
    (round_trip1 watt_metersquared_hertz2erg_cmsquared_second_hertz
                 erg_cmsquared_secondhertz2watt_metersquaredhertz x)
    (magnitude x).
Proof.
  unfold round_trip1, watt_metersquared_hertz2erg_cmsquared_second_hertz,
    erg_cmsquared_secondhertz2watt_metersquaredhertz;
    cbn [bind].
  repeat (run_div; [nonzero|]). finish_magnitude.
Qed.

Lemma round_trip_watt_metersquared_hertz_jansky :
  returns_magnitude
    (round_trip1 watt_metersquared_hertz2jansky
                 jansky2watt_metersquared_hertz x)
    (magnitude x).
Proof.
  unfold round_trip1, watt_metersquared_hertz2jansky,
    jansky2watt_metersquared_hertz;
    cbn [bind].
  repeat (run_div; [nonzero|]). finish_magnitude.
Qed.

Lemma round_trip_erg_cmsquared_second_hertz_jansky :
  returns_magnitude
    (round_trip1 erg_cmsquared_second_hertz2jansky
                 jansky2erg_cmsquared_second_hertz x)
    (magnitude x).
Proof.
  unfold round_trip1, erg_cmsquared_second_hertz2jansky,
    jansky2erg_cmsquared_second_hertz;
    cbn [bind].
  repeat (run_div; [nonzero|]). finish_magnitude.
Qed.

Lemma round_trip_rayleigh_steradian :
  returns_magnitude
    (round_trip1 rayleigh2photon_cmsquared_second_angstrom_steradian
                 photon_cmsquared_second_angstrom_steradian2rayleigh x)
    (magnitude x).
Proof.
  unfold round_trip1, rayleigh2photon_cmsquared_second_angstrom_steradian,
    photon_cmsquared_second_angstrom_steradian2rayleigh;
    cbn [bind].
  repeat (run_div; [nonzero|]). finish_magnitude.
Qed.

Lemma round_trip_rayleigh_degreesquared :
  returns_magnitude
    (round_trip1 rayleigh2photon_cmsquared_second_angstrom_degreesquared
                 photon_cmsquared_second_angstrom_degreesquared2rayleigh x)
    (magnitude x).
Proof.
  unfold round_trip1, rayleigh2photon_cmsquared_second_angstrom_degreesquared,
    photon_cmsquared_second_angstrom_degreesquared2rayleigh;
    cbn [bind].
  repeat (run_div; [nonzero|]). finish_magnitude.
Qed.

End RoundTripScaling.

(** The pairs that take a wavelength, whose magnitude is not zero. *)
Section RoundTripWavelength.

Variables x w : pyval.
Hypothesis w_nonzero : ~ magnitude w == 0.

Lemma round_trip_watt_metersquared_hertz_erg_cmsquared_second_angstrom :
  returns_magnitude
    (round_trip2 watt_metersquared_hertz2erg_cmsquared_second_angstrom
                 erg_cmsquared_second_angstrom2watt_metersquared_hertz x w)
    (magnitude x).
Proof.
  unfold round_trip2, watt_metersquared_hertz2erg_cmsquared_second_angstrom,
    erg_cmsquared_second_angstrom2watt_metersquared_hertz;
    cbn [bind].
  repeat (run_div; [nonzero|]). finish_magnitude.
Qed.

Lemma round_trip_watt_metersquared_hertz_watt_metersquared_micron :
  returns_magnitude
    (round_trip2 watt_metersquared_hertz2watt_metersquared_micron
                 watt_metersquared_micron2watt_metersquared_hertz x w)
    (magnitude x).
Proof.
  unfold round_trip2, watt_metersquared_hertz2watt_metersquared_micron,
    watt_metersquared_micron2watt_metersquared_hertz;
    cbn [bind].
  repeat (run_div; [nonzero|]). finish_magnitude.
Qed.

Lemma round_trip_erg_cmsquared_hertz_photon_cmsquared_second_micron :
  returns_magnitude
    (round_trip2 erg_cmsquared_hertz2photon_cmsquared_second_micron
                 photon_cmsquared_second_micron2erg_cmsquared_hertz x w)
    (magnitude x).
Proof.
  unfold round_trip2, erg_cmsquared_hertz2photon_cmsquared_second_micron,
    photon_cmsquared_second_micron2erg_cmsquared_hertz;
    cbn [bind].
  repeat (run_div; [nonzero|]). finish_magnitude.
Qed.

Lemma round_trip_watt_metersquared_micron_photon_cmsquared_second_micron :
  returns_magnitude
    (round_trip2 watt_metersquared_micron2photon_cmsquared_second_micron
                 photon_cmsquared_second_micron2watt_metersquared_micron x w)
    (magnitude x).
Proof.
  unfold round_trip2, watt_metersquared_micron2photon_cmsquared_second_micron,
    photon_cmsquared_second_micron2watt_metersquared_micron;
    cbn [bind].
  repeat (run_div; [nonzero|]). finish_magnitude.
Qed.

Lemma round_trip_erg_cmsquared_second_angstrom_photon :
  returns_magnitude
    (round_trip2
       erg_cmsquared_second_angstrom2photon_cmsquared_second_angstrom
       photon_cmsquared_second_angstrom2erg_cmsquared_second_angstrom x w)
    (magnitude x).
Proof.
  unfold round_trip2,
    erg_cmsquared_second_angstrom2photon_cmsquared_second_angstrom,
    photon_cmsquared_second_angstrom2erg_cmsquared_second_angstrom;
    cbn [bind].
  repeat (run_div; [nonzero|]). finish_magnitude.
Qed.

Lemma round_trip_watt_metersquared_micron_jansky :
  returns_magnitude
    (round_trip2 watt_metersquared_micron2jansky
                 jansky2watt_metersquared_micron x w)
    (magnitude x).
Proof.
  unfold round_trip2, watt_metersquared_micron2jansky,
    jansky2watt_metersquared_micron,
    watt_metersquared_micron2watt_metersquared_hertz,
    watt_metersquared_hertz2jansky, jansky2watt_metersquared_hertz,
    watt_metersquared_hertz2watt_metersquared_micron;
    cbn [bind].
  repeat (run_div; [nonzero|]). finish_magnitude.
Qed.

Lemma round_trip_jansky_photon_cmsquared_second_angstrom :
  returns_magnitude
    (round_trip2 jansky2photon_cmsquared_second_angstrom
                 photon_cmsquared_second_angstrom2jansky x w)
    (magnitude x).
Proof.
  unfold round_trip2, jansky2photon_cmsquared_second_angstrom,
    photon_cmsquared_second_angstrom2jansky;
    cbn [bind].
  repeat (run_div; [nonzero|]). finish_magnitude.
Qed.

End RoundTripWavelength.

(** ** The two pairs that do not round-trip *)

(** The converter from photon/cm^2/s/A/arcsec^2 to Rayleigh divides the
    constant by its input, so the pair returns the reciprocal of what it was
    given. *)
Lemma round_trip_rayleigh_arcsecondsquared_reciprocal (x : pyval) :
  ~ magnitude x == 0 ->
  returns_magnitude
    (round_trip1 rayleigh2photon_cmsquared_second_angstrom_arcsecondsquared
                 photon_cmsquared_second_angstrom_arcsecondsquared2rayleigh x)
    (/ magnitude x).
Proof.
  intros x_nonzero.
  unfold round_trip1,
    rayleigh2photon_cmsquared_second_angstrom_arcsecondsquared,
    photon_cmsquared_second_angstrom_arcsecondsquared2rayleigh; cbn [bind].
  run_div.
  - intros E; apply x_nonzero.
    apply Qmult_integral in E; destruct E as [E|E]; [discriminate E|exact E].
  - finish_magnitude.
Qed.

(** The forward direction of the erg/cm^2/s/A and Jansky pair multiplies by
    1e23/2.99792458e14, its inverse divides by 3.33564095e4: the pair
    scales its input by their ratio. *)
Lemma round_trip_erg_cmsquared_second_angstrom_jansky_scaled (x w : pyval) :
  ~ magnitude w == 0 ->
  returns_magnitude
    (round_trip2 erg_cmsquared_second_angstrom2jansky
                 jansky2erg_cmsquared_second_angstrom x w)
    (1e23 / 2.99792458e14 / 3.33564095e4 * magnitude x).
Proof.
  intros w_nonzero.
  unfold round_trip2, erg_cmsquared_second_angstrom2jansky,
    jansky2erg_cmsquared_second_angstrom; cbn [bind].
  repeat (run_div; [nonzero|]). finish_magnitude.
Qed.

(** C1 (the code departs from the claim): the round trip through
    [rayleigh2photon_cmsquared_second_angstrom_arcsecondsquared] and
    [photon_cmsquared_second_angstrom_arcsecondsquared2rayleigh] takes 2 to
    1/2, and the round trip through [erg_cmsquared_second_angstrom2jansky]
    and [jansky2erg_cmsquared_second_angstrom] at wavelength 1 takes 1 to
    1e23/2.99792458e14/3.33564095e4, which is more than 10000; neither
    result is the input within the relative error 1e-9. *)
Theorem round_trip_fails_on_two_pairs :
  returns_magnitude
    (round_trip1 rayleigh2photon_cmsquared_second_angstrom_arcsecondsquared
                 photon_cmsquared_second_angstrom_arcsecondsquared2rayleigh
                 (PyFloat 2))
    (1 # 2)
  /\ ~ rel_close 1e-9 2 (1 # 2)
  /\ returns_magnitude
       (round_trip2 erg_cmsquared_second_angstrom2jansky
                    jansky2erg_cmsquared_second_angstrom
                    (PyFloat 1) (PyFloat 1))
       (1e23 / 2.99792458e14 / 3.33564095e4)
  /\ 10000 < 1e23 / 2.99792458e14 / 3.33564095e4
  /\ ~ rel_close 1e-9 1 (1e23 / 2.99792458e14 / 3.33564095e4).
Proof.
  split; [|split; [|split; [|split]]].
  - vm_compute; reflexivity.
  - intros H; vm_compute in H; apply H; reflexivity.
  - vm_compute; reflexivity.
  - vm_compute; reflexivity.
  - intros H; vm_compute in H; apply H; reflexivity.
Qed.

(** ** [frequency2wavelength] *)

(** The body of [frequency2wavelength] is the body of
    [wavelength2frequency]: it asks for a length. *)
Lemma frequency2wavelength_is_wavelength2frequency (q : Quantity) (u : Unit) :
  frequency2wavelength q u = wavelength2frequency q u.
Proof. reflexivity. Qed.

(** C2 (the code departs from the claim): on every quantity whose dimension
    is a frequency, and for every output unit, [frequency2wavelength] raises
    the dimension mismatch of its opening conversion to metres; it returns
    no wavelength. *)
Theorem frequency2wavelength_rejects_frequency
    (input_frequency : Quantity) (output_units : Unit) :
  dim (unit input_frequency) = dim_frequency ->
  frequency2wavelength input_frequency output_units
  = Raise UnitConversionError.
Proof.
  intros H; unfold frequency2wavelength.
  rewrite to_incommensurate; [reflexivity|].
  rewrite H; discriminate.
Qed.

Lemma frequency2wavelength_rejects_frequency_witness :
  dim (unit (mkQuantity 1 Hz)) = dim_frequency
  /\ frequency2wavelength (mkQuantity 1 Hz) m = Raise UnitConversionError.
Proof.
  split; [reflexivity|].
  apply frequency2wavelength_rejects_frequency; reflexivity.
Defined.

(** What [frequency2wavelength] accepts is a length, and what it then
    returns is a frequency. *)
Lemma frequency2wavelength_on_length
    (input_frequency : Quantity) (output_units : Unit) :
  dim (unit input_frequency) = dim_length ->
  ~ value input_frequency == 0 ->
  dim output_units = dim_frequency ->
  returns_quantity
    (frequency2wavelength input_frequency output_units)
    (299792458 / value input_frequency
     * (1 / scale (unit input_frequency) / scale output_units))
    output_units.
Proof.
  intros Hd Hv Ho; unfold frequency2wavelength.
  rewrite to_commensurate by exact Hd; cbn [bind].
  unfold quantity_truediv; rewrite (Qeq_bool_nonzero _ Hv); cbn [bind].
  rewrite to_commensurate.
  - cbn; split; [|reflexivity]. reflexivity.
  - cbn [unit dim unit_div c]; rewrite Hd, Ho; reflexivity.
Qed.

(** ** The erg/cm^2/s/A to Jansky constant *)

Lemma jansky2erg_cmsquared_second_angstrom_value (B w : pyval) :
  ~ magnitude w == 0 ->
  returns_magnitude
    (jansky2erg_cmsquared_second_angstrom B w)
    (magnitude B / (magnitude w * magnitude w) / 3.33564095e4).
Proof.
  intros w_nonzero; unfold jansky2erg_cmsquared_second_angstrom.
  repeat (run_div; [nonzero|]). finish_magnitude.
Qed.

(** C3 (the code departs from the claim): for every flux A and wavelength w
    [erg_cmsquared_second_angstrom2jansky] returns
    (1e23/2.99792458e14) * A * w^2; at A = 1 and w = 1 that is
    1e23/2.99792458e14, a number above 3.3e8 and so not the 3.33564095e4 of
    the inverse direction. *)
Theorem erg_cmsquared_second_angstrom2jansky_constant :
  (forall A w : pyval,
     returns_magnitude
       (erg_cmsquared_second_angstrom2jansky A w)
       (1e23 / 2.99792458e14 * magnitude A * (magnitude w * magnitude w)))
  /\ returns_float
       (erg_cmsquared_second_angstrom2jansky (PyFloat 1) (PyFloat 1))
       (1e23 / 2.99792458e14)
  /\ 3.3e8 < 1e23 / 2.99792458e14
  /\ ~ 1e23 / 2.99792458e14 == 3.33564095e4
  /\ ~ rel_close 1e-9 3.33564095e4 (1e23 / 2.99792458e14).
Proof.
  split; [|split; [|split; [|split]]].
  - intros A w; unfold erg_cmsquared_second_angstrom2jansky.
    run_div; [nonzero|]. finish_magnitude.
  - vm_compute; reflexivity.
  - vm_compute; reflexivity.
  - intros H; vm_compute in H; discriminate H.
  - intros H; vm_compute in H; apply H; reflexivity.
Qed.

(** ** The composed converters *)

(** C6: [jansky2watt_metersquared_micron] is [jansky2watt_metersquared_hertz]
    followed by [watt_metersquared_hertz2watt_metersquared_micron], and
    [watt_metersquared_micron2jansky] is
    [watt_metersquared_micron2watt_metersquared_hertz] followed by
    [watt_metersquared_hertz2jansky]: the same computation, equal as results
    and not only in magnitude. *)
Theorem composed_converters_chain (input_flux input_wavelength : pyval) :
  jansky2watt_metersquared_micron input_flux input_wavelength
  = bind (jansky2watt_metersquared_hertz input_flux)
         (fun fnu =>
            watt_metersquared_hertz2watt_metersquared_micron
              fnu input_wavelength)
  /\ watt_metersquared_micron2jansky input_flux input_wavelength
     = bind (watt_metersquared_micron2watt_metersquared_hertz
               input_flux input_wavelength)
            watt_metersquared_hertz2jansky.
Proof. split; reflexivity. Qed.

(** No direct constant is involved: the magnitudes are those of the two
    hops. *)
Lemma jansky2watt_metersquared_micron_value (x w : pyval) :
  ~ magnitude w == 0 ->
  returns_magnitude
    (jansky2watt_metersquared_micron x w)
    (2.99792458e14 * (magnitude x / 1e26) / (magnitude w * magnitude w)).
Proof.
  intros w_nonzero.
  unfold jansky2watt_metersquared_micron, jansky2watt_metersquared_hertz,
    watt_metersquared_hertz2watt_metersquared_micron.
  repeat (run_div; [nonzero|]). finish_magnitude.
Qed.

Lemma watt_metersquared_micron2jansky_value (x w : pyval) :
  returns_magnitude
    (watt_metersquared_micron2jansky x w)
    (1e26 * (magnitude x * (magnitude w * magnitude w) / 2.99792458e14)).
Proof.
  unfold watt_metersquared_micron2jansky, watt_metersquared_hertz2jansky,
    watt_metersquared_micron2watt_metersquared_hertz.
  repeat (run_div; [nonzero|]). finish_magnitude.
Qed.

(** ** Dimension mismatch in the generic converters *)

(** A wavelength that is not a length stops each generic converter at a
    conversion, whatever the flux and the output unit are. *)
Lemma generic_converters_need_length
    (input_flux input_wavelength : Quantity) (output_units : Unit) :
  dim (unit input_wavelength) <> dim_length ->
  fnu2flambda input_flux input_wavelength output_units
  = Raise UnitConversionError
  /\ flambda2fnu input_flux input_wavelength output_units
     = Raise UnitConversionError
  /\ wavelength2frequency input_wavelength output_units
     = Raise UnitConversionError.
Proof.
  intros N.
  assert (Hmicron : to input_wavelength micron = Raise UnitConversionError)
    by (apply to_incommensurate; exact N).
  assert (Hm : to input_wavelength m = Raise UnitConversionError)
    by (apply to_incommensurate; exact N).
  unfold fnu2flambda, flambda2fnu, wavelength2frequency.
  rewrite Hmicron, Hm.
  split; [|split].
  - destruct (to input_flux W_m2_Hz) as [q|e] eqn:E; cbn [bind].
    + reflexivity.
    + rewrite (to_raises _ _ _ E); reflexivity.
  - destruct (to input_flux W_m2_micron) as [q|e] eqn:E; cbn [bind].
    + reflexivity.
    + rewrite (to_raises _ _ _ E); reflexivity.
  - reflexivity.
Qed.

(** C7: with a wavelength expressed in a time unit, [fnu2flambda],
    [flambda2fnu] and [wavelength2frequency] raise the dimension mismatch of
    the quantity subsystem, for every flux and every output unit; none of
    them returns a number. *)
Theorem generic_converters_reject_time
    (input_flux input_wavelength : Quantity) (output_units : Unit) :
  dim (unit input_wavelength) = dim_time ->
  fnu2flambda input_flux input_wavelength output_units
  = Raise UnitConversionError
  /\ flambda2fnu input_flux input_wavelength output_units
     = Raise UnitConversionError
  /\ wavelength2frequency input_wavelength output_units
     = Raise UnitConversionError.
Proof.
  intros H; apply generic_converters_need_length.
  rewrite H; discriminate.
Qed.

Lemma generic_converters_reject_time_witness :
  dim (unit (mkQuantity 5 second)) = dim_time
  /\ fnu2flambda (mkQuantity 3 W_m2_Hz) (mkQuantity 5 second) W_m2_micron
     = Raise UnitConversionError
  /\ flambda2fnu (mkQuantity 3 W_m2_micron) (mkQuantity 5 second) W_m2_Hz
     = Raise UnitConversionError
  /\ wavelength2frequency (mkQuantity 5 second) Hz
     = Raise UnitConversionError.
Proof.
  split; [reflexivity|].
  pose proof (generic_converters_reject_time
                (mkQuantity 3 W_m2_Hz) (mkQuantity 5 second) W_m2_micron
                eq_refl) as (H1 & _ & _).
  pose proof (generic_converters_reject_time
                (mkQuantity 3 W_m2_micron) (mkQuantity 5 second) W_m2_Hz
                eq_refl) as (_ & H2 & _).
  pose proof (generic_converters_reject_time
                (mkQuantity 3 W_m2_Hz) (mkQuantity 5 second) Hz
                eq_refl) as (_ & _ & H3).
  exact (conj H1 (conj H2 H3)).
Defined.

(** ** Known values *)

(** C8: [watt_metersquared2erg_cmsquared_second] takes 1.0 to 1000.0,
    [watt_metersquared_hertz2jansky] takes 1.0 to 1.0e26,
    [jansky2watt_metersquared_hertz] takes 1.0e26 to 1.0,
    [rayleigh2photon_cmsquared_second_angstrom_steradian] takes 1.0 to
    7.9577539e4, and [wavelength2frequency] of one metre, asked in Hz, is
    2.99792458e8 Hz, the speed of light in metres per second. *)
Theorem known_values :
  returns_float (watt_metersquared2erg_cmsquared_second (PyFloat 1.0)) 1000.0
  /\ returns_float (watt_metersquared_hertz2jansky (PyFloat 1.0)) 1.0e26
  /\ returns_float (jansky2watt_metersquared_hertz (PyFloat 1.0e26)) 1.0
  /\ returns_float
       (rayleigh2photon_cmsquared_second_angstrom_steradian (PyFloat 1.0))
       7.9577539e4
  /\ returns_quantity (wavelength2frequency (mkQuantity 1 m) Hz)
                      2.99792458e8 Hz
  /\ 2.99792458e8 == value c.
Proof.
  split; [|split; [|split; [|split; [|split]]]];
    try (vm_compute; reflexivity).
  vm_compute; split; reflexivity.
Qed.

(** The remaining known value of the specification. *)
Lemma erg_cmsquared_second_hertz2jansky_known_value :
  returns_float (erg_cmsquared_second_hertz2jansky (PyFloat 1.0)) 1.0e23.
Proof. vm_compute; reflexivity. Qed.

(** ** [fnu2flambda] and [flambda2fnu] *)

Lemma rescale_nonzero (q : Quantity) (u : Unit) :
  unit_wf (unit q) -> unit_wf u -> ~ value q == 0 ->
  ~ value (rescale q u) == 0.
Proof.
  unfold unit_wf, rescale; cbn [value]; intros Hq Hu Hv E.
  apply Qmult_integral in E; destruct E as [E|E]; [contradiction|].
  assert (0 < scale (unit q) / scale u).
  { apply Qlt_shift_div_l; [exact Hu|]. lra. }
  lra.
Qed.

Lemma micron_wf : unit_wf micron.
Proof. reflexivity. Qed.

Section Generic.

Variables input_flux input_wavelength : Quantity.
Variable output_units : Unit.

Hypothesis wavelength_is_length : dim (unit input_wavelength) = dim_length.
Hypothesis wavelength_unit_wf : unit_wf (unit input_wavelength).
Hypothesis wavelength_nonzero : ~ value input_wavelength == 0.

(** What [fnu2flambda] returns on a flux per frequency. *)
Lemma fnu2flambda_ok :
  dim (unit input_flux) = dim_fnu ->
  dim output_units = dim_flambda ->
  fnu2flambda input_flux input_wavelength output_units
  = Ok (rescale
          (attach_unit
             (value (rescale c (unit_div micron second))
              * value (rescale input_flux W_m2_Hz)
              / Qpower_positive (value (rescale input_wavelength micron)) 2)
             W_m2_micron)
          output_units).
Proof.
  intros Hf Ho; unfold fnu2flambda.
  rewrite (to_commensurate input_flux) by (rewrite Hf; reflexivity).
  rewrite (to_commensurate input_wavelength)
    by (rewrite wavelength_is_length; reflexivity).
  rewrite (to_commensurate c) by reflexivity.
  cbn [bind]; unfold float_truediv.
  rewrite Qeq_bool_nonzero
    by (apply Qsquare_nonzero, rescale_nonzero;
        auto using micron_wf).
  cbn [bind].
  apply to_commensurate; rewrite Ho; reflexivity.
Qed.

(** What [flambda2fnu] returns on a flux per wavelength. *)
Lemma flambda2fnu_ok :
  dim (unit input_flux) = dim_flambda ->
  dim output_units = dim_fnu ->
  flambda2fnu input_flux input_wavelength output_units
  = Ok (rescale
          (attach_unit
             (value (rescale input_flux W_m2_micron)
              * Qpower_positive (value (rescale input_wavelength micron)) 2
              / value (rescale c (unit_div micron second)))
             W_m2_Hz)
          output_units).
Proof.
  intros Hf Ho; unfold flambda2fnu.
  rewrite (to_commensurate input_flux) by (rewrite Hf; reflexivity).
  rewrite (to_commensurate input_wavelength)
    by (rewrite wavelength_is_length; reflexivity).
  rewrite (to_commensurate c) by reflexivity.
  cbn [bind]; unfold float_truediv.
  rewrite Qeq_bool_nonzero by discriminate.
  cbn [bind].
  apply to_commensurate; rewrite Ho; reflexivity.
Qed.

End Generic.

(** The speed of light that [fnu2flambda] converts for itself is the one of
    the specification. *)
Lemma speed_of_light_in_micron_per_second :
  value (rescale c (unit_div micron second))
  == speed_of_light_micron_per_second.
Proof. vm_compute; reflexivity. Qed.

(** C4: on a flux per frequency, a wavelength that is a length of nonzero
    magnitude and an output unit per wavelength, [fnu2flambda] returns what
    the steps of its specification give: the flux in W/m^2/Hz and the
    wavelength in micron, the flux magnitude times (speed of light in
    micron/s) / wavelength^2, tagged W/m^2/micron and converted to the
    output unit. *)
Theorem fnu2flambda_follows_steps
    (input_flux input_wavelength : Quantity) (output_units : Unit) :
  dim (unit input_flux) = dim_fnu ->
  dim (unit input_wavelength) = dim_length ->
  unit_wf (unit input_wavelength) ->
  ~ value input_wavelength == 0 ->
  dim output_units = dim_flambda ->
  returns_quantity
    (fnu2flambda input_flux input_wavelength output_units)
    (value (fnu2flambda_steps input_flux input_wavelength output_units))
    output_units.
Proof.
  intros Hf Hw Hwf Hv Ho.
  rewrite fnu2flambda_ok by assumption.
  cbn [returns_quantity]; split; [|reflexivity].
  pose proof (rescale_nonzero _ _ Hwf micron_wf Hv) as Hnz.
  unfold fnu2flambda_steps.
  set (wl := rescale input_wavelength micron) in *.
  set (fl := rescale input_flux W_m2_Hz).
  unfold rescale at 1 3; unfold attach_unit; cbn [value unit].
  rewrite speed_of_light_in_micron_per_second.
  cbn [Qpower_positive pow_pos].
  generalize (scale W_m2_micron / scale output_units); intros k.
  field; exact Hnz.
Qed.

Lemma fnu2flambda_follows_steps_witness :
  returns_quantity
    (fnu2flambda (mkQuantity 3 erg_s_cm2_Hz) (mkQuantity 500 nm) W_m2_micron)
    (value (fnu2flambda_steps (mkQuantity 3 erg_s_cm2_Hz) (mkQuantity 500 nm)
                              W_m2_micron))
    W_m2_micron.
Proof.
  apply fnu2flambda_follows_steps.
  - reflexivity.
  - reflexivity.
  - reflexivity.
  - discriminate.
  - reflexivity.
Defined.

Lemma unit_wf_nonzero (u : Unit) : unit_wf u -> ~ scale u == 0.
Proof. unfold unit_wf; intros H E; lra. Qed.



(** Closes a goal [is_ok (converter ...)] whose divisors are nonzero. *)
Ltac divisions_ok :=
  repeat (run_div; [nonzero|]); exact I.

(** ** The unit of what a fixed-constant converter returns *)

Create HintDb converters.

#[local] Hint Unfold
  watt_metersquared2erg_cmsquared_second
  erg_cmsquared_second2watt_metersquared
  watt_metersquared_hertz2erg_cmsquared_second_hertz
  erg_cmsquared_secondhertz2watt_metersquaredhertz
  watt_metersquared_hertz2erg_cmsquared_second_angstrom
  erg_cmsquared_second_angstrom2watt_metersquared_hertz
  watt_metersquared_hertz2watt_metersquared_micron
  watt_metersquared_micron2watt_metersquared_hertz
  erg_cmsquared_hertz2photon_cmsquared_second_micron
  photon_cmsquared_second_micron2erg_cmsquared_hertz
  watt_metersquared_micron2photon_cmsquared_second_micron
  photon_cmsquared_second_micron2watt_metersquared_micron
  erg_cmsquared_second_angstrom2photon_cmsquared_second_angstrom
  photon_cmsquared_second_angstrom2erg_cmsquared_second_angstrom
  watt_metersquared_hertz2jansky
  jansky2watt_metersquared_hertz
  erg_cmsquared_second_hertz2jansky
  jansky2erg_cmsquared_second_hertz
  erg_cmsquared_second_angstrom2jansky
  jansky2erg_cmsquared_second_angstrom
  watt_metersquared_micron2jansky
  jansky2watt_metersquared_micron
  jansky2photon_cmsquared_second_angstrom
  photon_cmsquared_second_angstrom2jansky
  rayleigh2photon_cmsquared_second_angstrom_steradian
  photon_cmsquared_second_angstrom_steradian2rayleigh
  rayleigh2photon_cmsquared_second_angstrom_degreesquared
  photon_cmsquared_second_angstrom_degreesquared2rayleigh
  rayleigh2photon_cmsquared_second_angstrom_arcsecondsquared
  photon_cmsquared_second_angstrom_arcsecondsquared2rayleigh
  : converters.

(** Unfolds the operators of a converter applied to quantities, the divisors
    being nonzero, and reads the unit off the result. *)
Ltac read_unit :=
  autounfold with converters;
  repeat (cbn [py_mul py_pow quantity_pow quantity_mul bind];
          try (unfold py_truediv at 1; cbn [magnitude value];
               rewrite Qeq_bool_nonzero by nonzero));
  cbn [bind returns_unit unit_of unit]; reflexivity.

(** A converter that takes no wavelength, other than
    [photon_cmsquared_second_angstrom_arcsecondsquared2rayleigh], returns its
    input's unit tag. *)
Lemma wavelength_free_converters_keep_unit (x : pyval) :
  returns_unit (watt_metersquared2erg_cmsquared_second x) (unit_of x)
  /\ returns_unit (erg_cmsquared_second2watt_metersquared x) (unit_of x)
  /\ returns_unit (watt_metersquared_hertz2erg_cmsquared_second_hertz x)
                  (unit_of x)
  /\ returns_unit (erg_cmsquared_secondhertz2watt_metersquaredhertz x)
                  (unit_of x)
  /\ returns_unit (watt_metersquared_hertz2jansky x) (unit_of x)
  /\ returns_unit (jansky2watt_metersquared_hertz x) (unit_of x)
  /\ returns_unit (erg_cmsquared_second_hertz2jansky x) (unit_of x)
  /\ returns_unit (jansky2erg_cmsquared_second_hertz x) (unit_of x)
  /\ returns_unit (rayleigh2photon_cmsquared_second_angstrom_steradian x)
                  (unit_of x)
  /\ returns_unit (photon_cmsquared_second_angstrom_steradian2rayleigh x)
                  (unit_of x)
  /\ returns_unit (rayleigh2photon_cmsquared_second_angstrom_degreesquared x)
                  (unit_of x)
  /\ returns_unit (photon_cmsquared_second_angstrom_degreesquared2rayleigh x)
                  (unit_of x)
  /\ returns_unit
       (rayleigh2photon_cmsquared_second_angstrom_arcsecondsquared x)
       (unit_of x).
Proof.
  repeat split; destruct x; read_unit.
Qed.

(** A converter that takes a wavelength returns the unit of the flux
    multiplied or divided by the unit of the wavelength, or by its square,
    as its formula does with the magnitudes. *)
Lemma wavelength_converters_combine_units (f w : Quantity) :
  ~ value w == 0 ->
  let flux := PyQuantity f in
  let wavelength := PyQuantity w in
  let per_square := unit_div (unit f) (unit_pow (unit w) 2) in
  let times_square := unit_mul (unit f) (unit_pow (unit w) 2) in
  let per_length := unit_div (unit f) (unit w) in
  let times_length := unit_mul (unit f) (unit w) in
  returns_unit
    (watt_metersquared_hertz2erg_cmsquared_second_angstrom flux wavelength)
    per_square
  /\ returns_unit
       (erg_cmsquared_second_angstrom2watt_metersquared_hertz flux wavelength)
       times_square
  /\ returns_unit
       (watt_metersquared_hertz2watt_metersquared_micron flux wavelength)
       per_square
  /\ returns_unit
       (watt_metersquared_micron2watt_metersquared_hertz flux wavelength)
       times_square
  /\ returns_unit
       (erg_cmsquared_hertz2photon_cmsquared_second_micron flux wavelength)
       per_length
  /\ returns_unit
       (photon_cmsquared_second_micron2erg_cmsquared_hertz flux wavelength)
       times_length
  /\ returns_unit
       (watt_metersquared_micron2photon_cmsquared_second_micron
          flux wavelength)
       times_length
  /\ returns_unit
       (photon_cmsquared_second_micron2watt_metersquared_micron
          flux wavelength)
       per_length
  /\ returns_unit
       (erg_cmsquared_second_angstrom2photon_cmsquared_second_angstrom
          flux wavelength)
       times_length
  /\ returns_unit
       (photon_cmsquared_second_angstrom2erg_cmsquared_second_angstrom
          flux wavelength)
       per_length
  /\ returns_unit (erg_cmsquared_second_angstrom2jansky flux wavelength)
                  times_square
  /\ returns_unit (jansky2erg_cmsquared_second_angstrom flux wavelength)
                  per_square
  /\ returns_unit (watt_metersquared_micron2jansky flux wavelength)
                  times_square
  /\ returns_unit (jansky2watt_metersquared_micron flux wavelength)
                  per_square
  /\ returns_unit (jansky2photon_cmsquared_second_angstrom flux wavelength)
                  per_length
  /\ returns_unit (photon_cmsquared_second_angstrom2jansky flux wavelength)
                  times_length.
Proof.
  intros w_nonzero flux wavelength per_square times_square per_length
    times_length.
  subst flux wavelength per_square times_square per_length times_length.
  repeat split; read_unit.
Qed.

(** [photon_cmsquared_second_angstrom_arcsecondsquared2rayleigh] divides the
    constant by the quantity: the unit it returns is the inverse of the
    input's. *)
Lemma arcsecondsquared2rayleigh_inverts_unit (q : Quantity) :
  ~ value q == 0 ->
  returns_unit
    (photon_cmsquared_second_angstrom_arcsecondsquared2rayleigh (PyQuantity q))
    (unit_inv (unit q))
  /\ returns_magnitude
       (photon_cmsquared_second_angstrom_arcsecondsquared2rayleigh
          (PyQuantity q))
       (1.8704247e-6 / value q).
Proof.
  intros q_nonzero.
  unfold photon_cmsquared_second_angstrom_arcsecondsquared2rayleigh,
    py_truediv; cbn [magnitude].
  rewrite Qeq_bool_nonzero by exact q_nonzero.
  split; reflexivity.
Qed.

(** The example of the claim: a quantity tagged W/m^2 comes back tagged
    W/m^2, a thousand times as large. *)
Lemma watt_metersquared2erg_cmsquared_second_keeps_tag (x : Q) :
  watt_metersquared2erg_cmsquared_second (PyQuantity (mkQuantity x W_m2))
  = Ok (PyQuantity (mkQuantity (1000 * x) W_m2)).
Proof. reflexivity. Qed.

(** C10 (the code departs from the claim): applied to the quantity
    2 photon/cm^2/s/A/arcsec^2,
    [photon_cmsquared_second_angstrom_arcsecondsquared2rayleigh], which takes
    no wavelength, returns a quantity of magnitude 1.8704247e-6 / 2 tagged
    with the inverse of the input's unit: not the input's own unit tag, and
    not the input's magnitude rescaled by the constant. *)
Theorem arcsecondsquared2rayleigh_changes_unit_tag :
  returns_unit
    (photon_cmsquared_second_angstrom_arcsecondsquared2rayleigh
       (PyQuantity (mkQuantity 2 ph_cm2_s_A_arcsec2)))
    (unit_inv ph_cm2_s_A_arcsec2)
  /\ dim (unit_inv ph_cm2_s_A_arcsec2) <> dim ph_cm2_s_A_arcsec2
  /\ ~ unit_equiv (unit_inv ph_cm2_s_A_arcsec2) ph_cm2_s_A_arcsec2
  /\ returns_magnitude
       (photon_cmsquared_second_angstrom_arcsecondsquared2rayleigh
          (PyQuantity (mkQuantity 2 ph_cm2_s_A_arcsec2)))
       (1.8704247e-6 / 2)
  /\ ~ 1.8704247e-6 / 2 == 2 / 1.8704247e-6.
Proof.
  split; [|split; [|split; [|split]]].
  - reflexivity.
  - discriminate.
  - intros [_ H]; discriminate H.
  - vm_compute; reflexivity.
  - intros H; vm_compute in H; discriminate H.
Qed.


(** * Further properties of the converters *)

(** ** Mutually inverse pairs *)

(** Evaluates a chain of converters on a flux and a wavelength that are
    each a float or a quantity, the wavelength being nonzero, and compares
    the result with the flux: the magnitudes as rationals, the scales of the
    units as rationals, the dimensions exponent by exponent. *)
Ltac run_chain :=
  autounfold with converters; unfold round_trip1, round_trip2;
  repeat (cbn [py_mul py_pow quantity_pow quantity_mul bind];
          try (unfold py_truediv at 1; cbn [magnitude value];
               rewrite Qeq_bool_nonzero by nonzero)).

Ltac same_dim :=
  repeat match goal with
         | |- context [dim ?u] =>
             is_var u; destruct u as [? []]
         end;
  unfold dim_mul, dim_div, dim_pow, dim_one;
  cbn [dim d_length d_mass d_time d_angle d_photon]; f_equal; lia.

Ltac equiv_result :=
  cbn [returns_equiv bind];
  unfold pyval_equiv, unit_equiv, quantity_mul, quantity_pow;
  cbn [magnitude unit_of value unit unit_mul unit_div unit_pow unit_inv
       scale dim dimensionless_unscaled Qpower_positive pow_pos];
  split; [|split];
  [ field; field_side
  | try reflexivity; field; field_side
  | try reflexivity; same_dim ].

(** X1: the formulas of each of the six pairs of converters that take no
    wavelength and scale by 1000, 1e26, 1e23, 7.9577539e4 or 2.4240705e1
    are inverse to one another: the two converters of a pair hold the same
    constant, so that, with the magnitudes read as exact rationals, one
    after the other, in either order, returns the magnitude it was given,
    under the unit tag it was given. *)
Theorem scaling_pairs_are_mutual_inverses (x : pyval) :
  returns_equiv
      (round_trip1
         watt_metersquared2erg_cmsquared_second
         erg_cmsquared_second2watt_metersquared
         x)
      x
  /\ returns_equiv
      (round_trip1
         erg_cmsquared_second2watt_metersquared
         watt_metersquared2erg_cmsquared_second
         x)
      x
  /\ returns_equiv
      (round_trip1
         watt_metersquared_hertz2erg_cmsquared_second_hertz
         erg_cmsquared_secondhertz2watt_metersquaredhertz
         x)
      x
  /\ returns_equiv
      (round_trip1
         erg_cmsquared_secondhertz2watt_metersquaredhertz
         watt_metersquared_hertz2erg_cmsquared_second_hertz
         x)
      x
  /\ returns_equiv
      (round_trip1
         watt_metersquared_hertz2jansky
         jansky2watt_metersquared_hertz
         x)
      x
  /\ returns_equiv
      (round_trip1
         jansky2watt_metersquared_hertz
         watt_metersquared_hertz2jansky
         x)
      x
  /\ returns_equiv
      (round_trip1
         erg_cmsquared_second_hertz2jansky
         jansky2erg_cmsquared_second_hertz
         x)
      x
  /\ returns_equiv
      (round_trip1
         jansky2erg_cmsquared_second_hertz
         erg_cmsquared_second_hertz2jansky
         x)
      x
  /\ returns_equiv
      (round_trip1
         rayleigh2photon_cmsquared_second_angstrom_steradian
         photon_cmsquared_second_angstrom_steradian2rayleigh
         x)
      x
  /\ returns_equiv
      (round_trip1
         photon_cmsquared_second_angstrom_steradian2rayleigh
         rayleigh2photon_cmsquared_second_angstrom_steradian
         x)
      x
  /\ returns_equiv
      (round_trip1
         rayleigh2photon_cmsquared_second_angstrom_degreesquared
         photon_cmsquared_second_angstrom_degreesquared2rayleigh
         x)
      x
  /\ returns_equiv
      (round_trip1
         photon_cmsquared_second_angstrom_degreesquared2rayleigh
         rayleigh2photon_cmsquared_second_angstrom_degreesquared
         x)
      x.
Proof.
  repeat split; destruct x as [v|[v u]]; run_chain; equiv_result.
Qed.

(** X2: the formulas of each of the seven pairs of converters that take a
    wavelength, other than the erg/cm^2/s/A and Jansky pair, are inverse to
    one another: the two converters of a pair hold the same constant and
    opposite powers of the wavelength, so that, with the magnitudes read as
    exact rationals and at a wavelength of nonzero magnitude, one after the
    other, in either order and with the same wavelength, returns the
    magnitude of the flux it was given, in a unit equivalent to the unit it
    was given. *)
Theorem wavelength_pairs_are_mutual_inverses (x w : pyval) :
  ~ magnitude w == 0 ->
  unit_wf (unit_of w) ->
  returns_equiv
      (round_trip2
         watt_metersquared_hertz2erg_cmsquared_second_angstrom
         erg_cmsquared_second_angstrom2watt_metersquared_hertz
         x w)
      x
  /\ returns_equiv
      (round_trip2
         erg_cmsquared_second_angstrom2watt_metersquared_hertz
         watt_metersquared_hertz2erg_cmsquared_second_angstrom
         x w)
      x
  /\ returns_equiv
      (round_trip2
         watt_metersquared_hertz2watt_metersquared_micron
         watt_metersquared_micron2watt_metersquared_hertz
         x w)
      x
  /\ returns_equiv
      (round_trip2
         watt_metersquared_micron2watt_metersquared_hertz
         watt_metersquared_hertz2watt_metersquared_micron
         x w)
      x
  /\ returns_equiv
      (round_trip2
         erg_cmsquared_hertz2photon_cmsquared_second_micron
         photon_cmsquared_second_micron2erg_cmsquared_hertz
         x w)
      x
  /\ returns_equiv
      (round_trip2
         photon_cmsquared_second_micron2erg_cmsquared_hertz
         erg_cmsquared_hertz2photon_cmsquared_second_micron
         x w)
      x
  /\ returns_equiv
      (round_trip2
         watt_metersquared_micron2photon_cmsquared_second_micron
         photon_cmsquared_second_micron2watt_metersquared_micron
         x w)
      x
  /\ returns_equiv
      (round_trip2
         photon_cmsquared_second_micron2watt_metersquared_micron
         watt_metersquared_micron2photon_cmsquared_second_micron
         x w)
      x
  /\ returns_equiv
      (round_trip2
         erg_cmsquared_second_angstrom2photon_cmsquared_second_angstrom
         photon_cmsquared_second_angstrom2erg_cmsquared_second_angstrom
         x w)
      x
  /\ returns_equiv
      (round_trip2
         photon_cmsquared_second_angstrom2erg_cmsquared_second_angstrom
         erg_cmsquared_second_angstrom2photon_cmsquared_second_angstrom
         x w)
      x
  /\ returns_equiv
      (round_trip2
         watt_metersquared_micron2jansky
         jansky2watt_metersquared_micron
         x w)
      x
  /\ returns_equiv
      (round_trip2
         jansky2watt_metersquared_micron
         watt_metersquared_micron2jansky
         x w)
      x
  /\ returns_equiv
      (round_trip2
         jansky2photon_cmsquared_second_angstrom
         photon_cmsquared_second_angstrom2jansky
         x w)
      x
  /\ returns_equiv
      (round_trip2
         photon_cmsquared_second_angstrom2jansky
         jansky2photon_cmsquared_second_angstrom
         x w)
      x.
Proof.
  intros w_nonzero w_unit_wf.
  apply unit_wf_nonzero in w_unit_wf.
  repeat split;
    destruct x as [v|[v u]], w as [l|[l ul]];
    cbn [magnitude unit_of value unit] in *;
    run_chain; equiv_result.
Qed.

Lemma wavelength_pairs_are_mutual_inverses_witness :
  returns_equiv
    (round_trip2
       jansky2photon_cmsquared_second_angstrom
       photon_cmsquared_second_angstrom2jansky
       (PyQuantity (mkQuantity 3 Jy)) (PyQuantity (mkQuantity 5000 Angstrom)))
    (PyQuantity (mkQuantity 3 Jy))
  /\ returns_equiv
       (round_trip2
          photon_cmsquared_second_micron2watt_metersquared_micron
          watt_metersquared_micron2photon_cmsquared_second_micron
          (PyFloat 7) (PyFloat 2))
       (PyFloat 7).
Proof.
  split.
  - apply (wavelength_pairs_are_mutual_inverses
             (PyQuantity (mkQuantity 3 Jy))
             (PyQuantity (mkQuantity 5000 Angstrom)));
      [discriminate|reflexivity].
  - apply (wavelength_pairs_are_mutual_inverses (PyFloat 7) (PyFloat 2));
      [discriminate|reflexivity].
Defined.

(** ** The generic converters in SI terms *)

(** Unfolds the conversions of a generic converter down to the rationals. *)
Ltac to_rationals :=
  unfold si, rescale, attach_unit; cbn [value unit];
  cbn [c W_m2_micron W_m2_Hz W m Hz micron second unit_div unit_pow
       scale value unit Qpower_positive pow_pos].

(** X3: on a flux per frequency, a wavelength that is a length of nonzero
    magnitude and an output unit per wavelength, each in whatever unit of
    its dimension, [fnu2flambda] returns a quantity in the output unit that
    is, in SI magnitudes, flux * c / wavelength^2 with c = 299792458: the
    detour through micron introduces no factor. *)
Theorem fnu2flambda_si
    (input_flux input_wavelength : Quantity) (output_units : Unit) :
  dim (unit input_flux) = dim_fnu ->
  dim (unit input_wavelength) = dim_length ->
  unit_wf (unit input_wavelength) ->
  ~ value input_wavelength == 0 ->
  dim output_units = dim_flambda ->
  unit_wf output_units ->
  returns_si (fnu2flambda input_flux input_wavelength output_units)
             output_units
             (si input_flux * 299792458
              / (si input_wavelength * si input_wavelength)).
Proof.
  intros Hf Hw Hwf Hv Ho Howf.
  rewrite fnu2flambda_ok by assumption.
  cbn [returns_si]; split; [reflexivity|].
  pose proof (unit_wf_nonzero _ Hwf).
  pose proof (unit_wf_nonzero _ Howf).
  to_rationals. field. repeat split; try assumption; discriminate.
Qed.

Lemma fnu2flambda_si_witness :
  returns_si
    (fnu2flambda (mkQuantity 3 erg_s_cm2_Hz) (mkQuantity 500 nm) erg_cm2_s_A)
    erg_cm2_s_A
    (si (mkQuantity 3 erg_s_cm2_Hz) * 299792458
     / (si (mkQuantity 500 nm) * si (mkQuantity 500 nm))).
Proof.
  apply fnu2flambda_si;
    solve [reflexivity | discriminate].
Defined.

(** X4: on a flux per wavelength, a wavelength that is a length of nonzero
    magnitude and an output unit per frequency, [flambda2fnu] returns a
    quantity in the output unit that is, in SI magnitudes,
    flux * wavelength^2 / c with c = 299792458. *)
Theorem flambda2fnu_si
    (input_flux input_wavelength : Quantity) (output_units : Unit) :
  dim (unit input_flux) = dim_flambda ->
  dim (unit input_wavelength) = dim_length ->
  unit_wf (unit input_wavelength) ->
  ~ value input_wavelength == 0 ->
  dim output_units = dim_fnu ->
  unit_wf output_units ->
  returns_si (flambda2fnu input_flux input_wavelength output_units)
             output_units
             (si input_flux * (si input_wavelength * si input_wavelength)
              / 299792458).
Proof.
  intros Hf Hw Hwf Hv Ho Howf.
  rewrite flambda2fnu_ok by assumption.
  cbn [returns_si]; split; [reflexivity|].
  pose proof (unit_wf_nonzero _ Hwf).
  pose proof (unit_wf_nonzero _ Howf).
  to_rationals. field. repeat split; try assumption; discriminate.
Qed.

Lemma flambda2fnu_si_witness :
  returns_si
    (flambda2fnu (mkQuantity 3 erg_cm2_s_A) (mkQuantity 500 nm) Jy)
    Jy
    (si (mkQuantity 3 erg_cm2_s_A)
     * (si (mkQuantity 500 nm) * si (mkQuantity 500 nm)) / 299792458).
Proof.
  apply flambda2fnu_si;
    solve [reflexivity | discriminate].
Defined.

(** ** [wavelength2frequency] *)

(** X8: on a wavelength that is a length of nonzero magnitude, in whatever
    length unit, and an output unit that is a frequency,
    [wavelength2frequency] returns a quantity in the output unit that is, in
    SI magnitudes, c / wavelength with c = 299792458. *)
Theorem wavelength2frequency_si
    (input_wavelength : Quantity) (output_units : Unit) :
  dim (unit input_wavelength) = dim_length ->
  unit_wf (unit input_wavelength) ->
  ~ value input_wavelength == 0 ->
  dim output_units = dim_frequency ->
  unit_wf output_units ->
  returns_si (wavelength2frequency input_wavelength output_units)
             output_units
             (299792458 / si input_wavelength).
Proof.
  intros Hw Hwf Hv Ho Howf; unfold wavelength2frequency.
  rewrite to_commensurate by exact Hw; cbn [bind].
  unfold quantity_truediv; rewrite (Qeq_bool_nonzero _ Hv); cbn [bind].
  rewrite to_commensurate
    by (cbn [unit dim unit_div c]; rewrite Hw, Ho; reflexivity).
  cbn [returns_si]; split; [reflexivity|].
  pose proof (unit_wf_nonzero _ Hwf).
  pose proof (unit_wf_nonzero _ Howf).
  to_rationals. field. repeat split; assumption.
Qed.

Lemma wavelength2frequency_si_witness :
  returns_si (wavelength2frequency (mkQuantity 500 nm) Hz) Hz
             (299792458 / si (mkQuantity 500 nm)).
Proof.
  apply wavelength2frequency_si; solve [reflexivity | discriminate].
Defined.

(** ** What a successful call certifies *)

Lemma to_ok_dim (q : Quantity) (u : Unit) (r : Quantity) :
  to q u = Ok r -> dim (unit q) = dim u /\ unit r = u.
Proof.
  unfold to; destruct (dim_eqb _ _) eqn:D; [|discriminate].
  apply dim_eqb_eq in D; intros E; injection E as <-; split; [exact D|].
  reflexivity.
Qed.

(** X9: a generic converter returns only when every argument has the
    dimension it is meant to have, and what it returns carries the output
    unit: a flux per frequency, a length and an output unit per wavelength
    for [fnu2flambda]; a flux per wavelength, a length and an output unit
    per frequency for [flambda2fnu]; a length and an output unit that is a
    frequency for [wavelength2frequency]. *)
Theorem generic_converters_success_certifies_dimensions
    (input_flux input_wavelength : Quantity) (output_units : Unit)
    (r : Quantity) :
  (fnu2flambda input_flux input_wavelength output_units = Ok r ->
     dim (unit input_flux) = dim_fnu
     /\ dim (unit input_wavelength) = dim_length
     /\ dim output_units = dim_flambda
     /\ unit r = output_units)
  /\ (flambda2fnu input_flux input_wavelength output_units = Ok r ->
        dim (unit input_flux) = dim_flambda
        /\ dim (unit input_wavelength) = dim_length
        /\ dim output_units = dim_fnu
        /\ unit r = output_units)
  /\ (wavelength2frequency input_wavelength output_units = Ok r ->
        dim (unit input_wavelength) = dim_length
        /\ dim output_units = dim_frequency
        /\ unit r = output_units).
Proof.
  split; [|split].
  - unfold fnu2flambda.
    destruct (to input_flux W_m2_Hz) as [f|] eqn:Ef; [|discriminate].
    destruct (to input_wavelength micron) as [w|] eqn:Ew; [|discriminate].
    rewrite (to_commensurate c) by reflexivity; cbn [bind].
    destruct (float_truediv _ _) as [x|]; [|discriminate]; cbn [bind].
    intros Er.
    apply to_ok_dim in Ef, Ew, Er.
    destruct Ef as [Ef _], Ew as [Ew _], Er as [Er Ur].
    repeat split; try assumption. symmetry; exact Er.
  - unfold flambda2fnu.
    destruct (to input_flux W_m2_micron) as [f|] eqn:Ef; [|discriminate].
    destruct (to input_wavelength micron) as [w|] eqn:Ew; [|discriminate].
    rewrite (to_commensurate c) by reflexivity; cbn [bind].
    destruct (float_truediv _ _) as [x|]; [|discriminate]; cbn [bind].
    intros Er.
    apply to_ok_dim in Ef, Ew, Er.
    destruct Ef as [Ef _], Ew as [Ew _], Er as [Er Ur].
    repeat split; try assumption. symmetry; exact Er.
  - unfold wavelength2frequency.
    destruct (to input_wavelength m) as [w|] eqn:Ew; [|discriminate].
    cbn [bind]; unfold quantity_truediv.
    destruct (Qeq_bool _ _); [discriminate|]; cbn [bind].
    intros Er.
    apply to_ok_dim in Ew, Er.
    destruct Ew as [Ew _], Er as [Er Ur].
    repeat split; try assumption.
    cbn [unit dim unit_div c] in Er; rewrite Ew in Er.
    symmetry; exact Er.
Qed.

Lemma generic_converters_success_certifies_dimensions_witness :
  dim (unit (mkQuantity 500 nm)) = dim_length
  /\ dim Hz = dim_frequency
  /\ unit (rescale (mkQuantity (299792458 / 500) (unit_div (unit c) nm)) Hz)
     = Hz.
Proof.
  apply (generic_converters_success_certifies_dimensions
           (mkQuantity 3 Jy) (mkQuantity 500 nm) Hz).
  reflexivity.
Defined.

(** X10: nothing in the library takes a frequency back to a wavelength:
    whatever [wavelength2frequency] returns, [frequency2wavelength] and
    [wavelength2frequency] both reject it with the dimension mismatch, for
    every output unit. *)
Theorem wavelength2frequency_has_no_way_back
    (input_wavelength frequency : Quantity) (unit1 unit2 : Unit) :
  wavelength2frequency input_wavelength unit1 = Ok frequency ->
  frequency2wavelength frequency unit2 = Raise UnitConversionError
  /\ wavelength2frequency frequency unit2 = Raise UnitConversionError.
Proof.
  intros E.
  destruct (generic_converters_need_length frequency frequency unit2)
    as (_ & _ & H).
  - unfold wavelength2frequency in E.
    destruct (to input_wavelength m) as [w|] eqn:Ew; [|discriminate].
    cbn [bind] in E; unfold quantity_truediv in E.
    destruct (Qeq_bool _ _); [discriminate|]; cbn [bind] in E.
    apply to_ok_dim in Ew, E.
    destruct Ew as [Ew _], E as [E U].
    rewrite U, <- E; cbn [unit dim unit_div c]; rewrite Ew; discriminate.
  - split; [|exact H].
    rewrite frequency2wavelength_is_wavelength2frequency; exact H.
Qed.

Lemma wavelength2frequency_has_no_way_back_witness :
  frequency2wavelength
    (rescale (mkQuantity (299792458 / 500) (unit_div (unit c) nm)) Hz) nm
  = Raise UnitConversionError
  /\ wavelength2frequency
       (rescale (mkQuantity (299792458 / 500) (unit_div (unit c) nm)) Hz) nm
     = Raise UnitConversionError.
Proof.
  apply (wavelength2frequency_has_no_way_back (mkQuantity 500 nm) _ Hz nm).
  reflexivity.
Defined.

(** ** Failure of the fixed-constant converters *)

Lemma py_truediv_raises (a b : pyval) (e : error) :
  py_truediv a b = Raise e -> e = DivisionByZero.
Proof.
  unfold py_truediv; destruct (Qeq_bool _ _).
  - intros E; injection E as <-; reflexivity.
  - destruct a, b; discriminate.
Qed.

Lemma py_truediv_never_mismatch (a b : pyval) :
  py_truediv a b <> Raise UnitConversionError.
Proof. intros E; apply py_truediv_raises in E; discriminate E. Qed.

(** Follows the divisions of a converter: one that raises, raises a division
    by zero. *)
Ltac no_mismatch :=
  autounfold with converters;
  repeat match goal with
         | |- context [bind (py_truediv ?a ?b) _] =>
             let v := fresh "v" in
             let e := fresh "e" in
             let E := fresh "E" in
             destruct (py_truediv a b) as [v|e] eqn:E; cbn [bind];
             [|apply py_truediv_raises in E; rewrite E; discriminate]
         end;
  first [discriminate | apply py_truediv_never_mismatch].

(** X11: no fixed-constant converter checks a unit: whatever the flux and
    the wavelength are, floats or quantities in any unit, none of the thirty
    converters raises the dimension mismatch. *)
Theorem fixed_constant_converters_raise_no_mismatch :
  List.Forall (fun f => forall x : pyval, f x <> Raise UnitConversionError)
              wavelength_free_converters
  /\ List.Forall
       (fun f => forall x w : pyval, f x w <> Raise UnitConversionError)
       wavelength_converters.
Proof.
  split.
  - unfold wavelength_free_converters, scaling_converters.
    repeat (apply List.Forall_cons; [intros x; no_mismatch|]).
    apply List.Forall_nil.
  - repeat (apply List.Forall_cons; [intros x w; no_mismatch|]).
    apply List.Forall_nil.
Qed.

(** X12: the converters that only multiply, and divide by their own
    constant, return on every input, a flux or a wavelength of magnitude
    zero included: the thirteen that take no wavelength and scale the flux,
    which is every one of them but
    [photon_cmsquared_second_angstrom_arcsecondsquared2rayleigh], and the
    four that multiply the flux by the wavelength. *)
Theorem converters_without_division_by_input_always_return (x w : pyval) :
  List.Forall (fun f => is_ok (f x)) scaling_converters
  /\ is_ok (photon_cmsquared_second_micron2erg_cmsquared_hertz x w)
  /\ is_ok (watt_metersquared_micron2photon_cmsquared_second_micron x w)
  /\ is_ok
       (erg_cmsquared_second_angstrom2photon_cmsquared_second_angstrom x w)
  /\ is_ok (photon_cmsquared_second_angstrom2jansky x w).
Proof.
  split.
  - unfold scaling_converters.
    repeat (apply List.Forall_cons;
            [autounfold with converters; divisions_ok|]).
    apply List.Forall_nil.
  - repeat split; autounfold with converters; divisions_ok.
Qed.

(** ** The constants in SI terms *)

(** Writes out the powers of ten of the decimal literals. *)
Ltac powers_of_ten :=
  repeat match goal with
         | |- context [Z.pow_pos ?b ?n] =>
             let v := eval vm_compute in (Z.pow_pos b n) in
             change (Z.pow_pos b n) with v
         end.

(** Evaluates a fixed-constant converter on quantities and compares the
    magnitude it returns, read in a unit, with an SI magnitude: both sides
    as rationals. *)
Ltac in_si :=
  unfold quantity; run_chain;
  unfold returns_in, si, quantity_mul, quantity_pow;
  cbn [magnitude value unit bind];
  unfold erg_cm2_s_A, erg_cm2_s, erg_s_cm2_Hz, W_m2, W_m2_Hz, W_m2_micron,
    Jy, erg, cm, Angstrom, W, m, Hz, micron, second, unit_div, unit_pow;
  cbn [scale Qpower_positive pow_pos];
  powers_of_ten; field; field_side.




(** Relative closeness of two constants carries over to their multiples. *)
Lemma rel_close_scale (tol k k' z a b : Q) :
  rel_close tol k k' -> a == k * z -> b == k' * z -> rel_close tol a b.
Proof.
  unfold rel_close; intros H Ea Eb.
  rewrite Ea, Eb.
  assert (E : k' * z - k * z == (k' - k) * z) by ring.
  rewrite E, !Qabs_Qmult, Qmult_assoc.
  apply Qmult_le_compat_r; [exact H|apply Qabs_nonneg].
Qed.

(** The coefficient of the law from Jansky and Angstrom to erg/cm^2/s/A is
    299792458e-13; the constant 3.33564095e4 is its reciprocal rounded to
    nine digits. *)
Lemma jansky_angstrom_coefficient :
  rel_close 1e-9 299792458e-13 (/ 3.33564095e4)
  /\ ~ 299792458e-13 == / 3.33564095e4.
Proof.
  split.
  - vm_compute; discriminate.
  - intros H; vm_compute in H; discriminate H.
Qed.

(** X16: the constant 3.33564095e4 of [jansky2erg_cmsquared_second_angstrom]
    is the coefficient of the law f_lambda = f_nu * c / lambda^2 in its
    documented units, rounded to nine digits: called on a flux in Jansky and
    a wavelength in Angstrom of nonzero magnitude, the rational the formula
    of the converter gives, read in erg/cm^2/s/A, is in SI terms within the
    relative error 1e-9 of what the law gives for that flux and that
    wavelength. *)
Theorem jansky2erg_cmsquared_second_angstrom_near_si_law (x l : Q) :
  ~ l == 0 ->
  returns_in_within 1e-9
    (jansky2erg_cmsquared_second_angstrom (quantity x Jy) (quantity l Angstrom))
    erg_cm2_s_A
    (si (mkQuantity x Jy) * 299792458
     / (si (mkQuantity l Angstrom) * si (mkQuantity l Angstrom))).
Proof.
  intros l_nonzero.
  unfold quantity; cbn [magnitude value] in *.
  run_chain.
  unfold returns_in_within, si, quantity_mul, quantity_pow;
    cbn [magnitude value unit].
  destruct jansky_angstrom_coefficient as [H _].
  apply (rel_close_scale _ _ _ (x / (l * l) * 1e7) _ _ H);
    unfold erg_cm2_s_A, erg_cm2_s, Jy, erg, cm, Angstrom, second,
      unit_div, unit_pow;
    cbn [scale Qpower_positive pow_pos];
    powers_of_ten; field; field_side.
Qed.

Lemma jansky2erg_cmsquared_second_angstrom_near_si_law_witness :
  returns_in_within 1e-9
    (jansky2erg_cmsquared_second_angstrom
       (quantity 3 Jy) (quantity 5000 Angstrom))
    erg_cm2_s_A
    (si (mkQuantity 3 Jy) * 299792458
     / (si (mkQuantity 5000 Angstrom) * si (mkQuantity 5000 Angstrom))).
Proof.
  apply jansky2erg_cmsquared_second_angstrom_near_si_law.
  discriminate.
Defined.


(** * The converters in binary64 *)

Module Binary64Facts.

Import Floats.
Import Binary64.
Local Open Scope float_scope.
#[local] Set Warnings "-inexact-float".

Lemma eqb_zero_inv (d : float) :
  (d =? 0) = true -> exists s, Prim2SF d = S754_zero s.
Proof.
  rewrite eqb_spec; change (Prim2SF 0) with (S754_zero false).
  destruct (Prim2SF d) as [s|s| |s m e]; intros H;
    try discriminate H; try (destruct s; discriminate H).
  exists s; reflexivity.
Qed.

(** A magnitude that is infinite is not zero. *)
Lemma infinite_is_nonzero (r : float) :
  is_infinity r = true -> (r =? 0) = false.
Proof.
  unfold is_infinity; rewrite !eqb_spec, abs_spec.
  change (Prim2SF 0) with (S754_zero false).
  change (Prim2SF infinity) with (S754_infinity false).
  destruct (Prim2SF r) as [s|s| |s m e]; cbn; intros H;
    try discriminate H; try reflexivity; destruct s; reflexivity.
Qed.

(** A numpy division by zero is infinite or not a number. *)
Lemma div_by_zero_not_finite (x d : float) :
  (d =? 0) = true -> is_finite (x / d) = false.
Proof.
  intros H; destruct (eqb_zero_inv d H) as [s E].
  unfold is_finite, is_nan, is_infinity.
  rewrite !eqb_spec, abs_spec, div_spec, E.
  change (Prim2SF infinity) with (S754_infinity false).
  destruct (Prim2SF x) as [s'|s'| |s' m' e']; cbn;
    repeat match goal with b : bool |- _ => destruct b end; reflexivity.
Qed.

(** And stays so under a multiplication. *)
Lemma mul_not_finite (k y : float) :
  is_finite y = false -> is_finite (k * y) = false.
Proof.
  unfold is_finite, is_nan, is_infinity.
  rewrite !eqb_spec, !abs_spec, mul_spec.
  change (Prim2SF infinity) with (S754_infinity false).
  destruct (Prim2SF y) as [s|s| |s m e]; cbn; intros H.
  - destruct s; discriminate H.
  - destruct (Prim2SF k) as [s'|s'| |s' m' e']; cbn;
      repeat match goal with b : bool |- _ => destruct b end; reflexivity.
  - destruct (Prim2SF k) as [s'|s'| |s' m' e']; reflexivity.
  - exfalso. revert H.
    destruct s; cbn; rewrite ?Pos.compare_refl, ?Z.compare_refl; cbn.
    all: rewrite ?Pos.compare_refl, ?Z.compare_refl; discriminate.
Qed.



(** At the other end of the range the square of a finite wavelength
    overflows, and the power raises before any division. *)
Lemma square_overflow_raises :
  float_pow2 1e200 = Raises OverflowError
  /\ watt_metersquared_hertz2erg_cmsquared_second_angstrom 3 1e200
     = Raises OverflowError.
Proof. split; vm_compute; reflexivity. Qed.

(** Decides the outcome of a converter on floats test by test. *)
Ltac by_tests :=
  unfold watt_metersquared_hertz2erg_cmsquared_second_angstrom,
    watt_metersquared_hertz2watt_metersquared_micron,
    photon_cmsquared_second_micron2watt_metersquared_micron,
    photon_cmsquared_second_angstrom2erg_cmsquared_second_angstrom,
    jansky2erg_cmsquared_second_angstrom,
    jansky2photon_cmsquared_second_angstrom,
    photon_cmsquared_second_angstrom_arcsecondsquared2rayleigh,
    float_pow2, float_truediv; cbv zeta;
  change (5.03411250e14 =? 0) with false;
  change (5.03411250e7 =? 0) with false;
  change (3.33564095e4 =? 0) with false;
  repeat (cbn [and_then]; match goal with
         | |- context [is_infinity ?r && negb (is_infinity ?x)] =>
             let E := fresh "E" in
             destruct (is_infinity r && negb (is_infinity x)) eqn:E;
             [ apply andb_prop in E; destruct E as [E _];
               apply infinite_is_nonzero in E; rewrite E
             | ]
         | |- context [?y =? 0] =>
             is_var y; destruct (y =? 0)
         | |- context [?y * ?y =? 0] =>
             destruct (y * y =? 0)
         end);
  cbn [and_then];
  split; intros H; solve [reflexivity | discriminate H].



End Binary64Facts.
